(** * backend_api.py: task tracking, conversation store and stream relays

    A shallow embedding of [src/backend_api.py]:
    - [TaskManager] ([create_task], [update_task], [get_task],
      [submit_task] with its [task_wrapper]);
    - [CurriculumDrivenLearningTutor] ([create_conversation],
      [start_conversation], [add_assistant_message], [save_conversations]);
    - the route bodies [chat], [analyze_file_content_async], [upload_file],
      [get_task_status] and [stream_analysis_result].

    Python values are modelled as the code has them: a [str] is a sequence
    of Unicode code points, a [dict] is a finite map, the task records are
    heap objects reached through references (so that a reference handed out
    by [get_task] aliases the stored record), and exceptions are explicit
    outcomes of a state-passing computation that also records every
    intermediate state another thread can observe. *)

From Stdlib Require Import ZArith Ascii String.
From stdpp Require Import base option list strings gmap.

Open Scope Z_scope.

(** ** Python values *)

(** A Python [str]: its code points, so that [len] and slicing count
    characters. *)
Abbreviation pystr := (list N) (only parsing).

(** An ASCII literal as a [str]. *)
Definition py (s : string) : pystr :=
  N_of_ascii <$> list_ascii_of_string s.

(** Truth value of a [str]: the empty string is falsy. *)
Definition truthy (s : pystr) : bool :=
  match s with [] => false | _ :: _ => true end.

(** Truth value of [x] where [x] is a [str] or [None]. *)
Definition truthy_opt (x : option pystr) : bool :=
  match x with Some s => truthy s | None => false end.

(** [s[i:j]] for [0 <= i <= j]. *)
Definition py_slice {A} (s : list A) (i j : nat) : list A :=
  take (j - i) (drop i s).

(** [range(0, stop, step)] for a positive [step]:
    [ceil(stop / step)] elements [0, step, 2*step, ...]. *)
Definition py_range (stop step : nat) : list nat :=
  (λ k, k * step)%nat <$> seq 0 ((stop + step - 1) / step)%nat.

(** The characters for which [str.isspace] holds; [str.strip()] removes
    them from both ends. *)
Definition py_isspace (c : N) : bool :=
  ((9 <=? c) && (c <=? 13) || (28 <=? c) && (c <=? 32) || (c =? 133)
   || (c =? 160) || (c =? 5760) || (8192 <=? c) && (c <=? 8202)
   || (c =? 8232) || (c =? 8233) || (c =? 8239) || (c =? 8287)
   || (c =? 12288))%N.

Fixpoint py_lstrip (s : pystr) : pystr :=
  match s with
  | c :: s' => if py_isspace c then py_lstrip s' else s
  | [] => []
  end.
Definition py_strip (s : pystr) : pystr :=
  reverse (py_lstrip (reverse (py_lstrip s))).

(** [class TaskStatus(Enum)] *)
Inductive TaskStatus := PENDING | PROCESSING | COMPLETED | FAILED.


#[global] Instance TaskStatus_eq_dec : EqDecision TaskStatus.
Proof. solve_decision. Defined.

(** The values stored in task records and JSON bodies. [VTime] is a
    reading of [time.time()]. *)
#[warnings="-register-all"]
Inductive pyval :=
  | VNone
  | VBool (b : bool)
  | VInt (z : Z)
  | VTime (t : N)
  | VStr (s : pystr)
  | VStatus (s : TaskStatus)
  | VDict (items : list (string * pyval)).

(** A [dict] with string keys. *)
Abbreviation pydict := (gmap string pyval) (only parsing).

(** [x is not None] *)
Definition is_set (v : pyval) : bool :=
  match v with VNone => false | _ => true end.

(** One message of a conversation: [{'role': ..., 'content': ...}]. *)
Inductive Role := user | assistant | system.

#[global] Instance Role_eq_dec : EqDecision Role.
Proof. solve_decision. Defined.

Record Turn := MkTurn { role : Role; content : pystr }.

(** Exceptions, by what [str(e)] needs: a failed subscript [d[key]], and
    any other exception with its message. *)
Inductive pyexn :=
  | KeyError (key : pystr)
  | PyException (msg : pystr).

(** ** The process state *)

(** What [conversations.json] holds: nothing (the file is absent), the
    JSON text of a map of conversations, or what a write leaves that
    failed after [open(..., 'w')] had emptied the file -- at most a part
    of the text. *)
Inductive FileContent :=
  | FileAbsent
  | FileBroken
  | FileHolds (m : gmap (list N) (list Turn)).

(** What the file system does when the file is written: [open] raises,
    [open] succeeds and a later write raises, or all writes succeed. *)
Inductive FileDevice := DeviceRefusesOpen | DeviceFailsWrite | DeviceWrites.

Record World := MkWorld {
  (** [task_manager.tasks]: task id to the reference of its record *)
  tasks : gmap (list N) nat;
  (** the [dict] objects the references denote *)
  heap : list (gmap string pyval);
  (** [tutor.conversations] *)
  conversations : gmap (list N) (list Turn);
  (** the content of [conversations.json] *)
  conversations_file : FileContent;
  (** how the file system treats a write of [conversations.json] *)
  file_device : FileDevice;
  (** how many times [time.time()] was read *)
  clock_reads : nat;
  (** how many times [uuid.uuid4()] was drawn *)
  uuid_draws : nat;
}.

Definition set_tasks (f : gmap (list N) nat → gmap (list N) nat) (w : World) :=
  MkWorld (f (tasks w)) (heap w) (conversations w) (conversations_file w)
          (file_device w) (clock_reads w) (uuid_draws w).
Definition set_heap (f : list (gmap string pyval) → list (gmap string pyval))
    (w : World) :=
  MkWorld (tasks w) (f (heap w)) (conversations w) (conversations_file w)
          (file_device w) (clock_reads w) (uuid_draws w).
Definition set_conversations
    (f : gmap (list N) (list Turn) → gmap (list N) (list Turn)) (w : World) :=
  MkWorld (tasks w) (heap w) (f (conversations w)) (conversations_file w)
          (file_device w) (clock_reads w) (uuid_draws w).
Definition set_conversations_file (d : FileContent) (w : World) :=
  MkWorld (tasks w) (heap w) (conversations w) d
          (file_device w) (clock_reads w) (uuid_draws w).
Definition tick_clock (w : World) :=
  MkWorld (tasks w) (heap w) (conversations w) (conversations_file w)
          (file_device w) (S (clock_reads w)) (uuid_draws w).
Definition tick_uuid (w : World) :=
  MkWorld (tasks w) (heap w) (conversations w) (conversations_file w)
          (file_device w) (clock_reads w) (S (uuid_draws w)).

(** The record stored for a task id, read through its reference. *)
Definition task_record (w : World) (task_id : pystr) : option (gmap string pyval) :=
  tasks w !! task_id ≫= λ l, heap w !! l.

(** ** Computations

    A computation starts in a state and ends in a state with a value or a
    raised exception. [trace] lists, oldest first, the state after every
    atomic step it took: the states another thread can observe. *)

Inductive Res (A : Type) :=
  | Ok (a : A)
  | Raise (e : pyexn).
Arguments Ok {A} a.
Arguments Raise {A} e.

Record Run (A : Type) := MkRun {
  trace : list World;
  final : World;
  outcome : Res A;
}.
Arguments MkRun {A} trace final outcome.
Arguments trace {A} r.
Arguments final {A} r.
Arguments outcome {A} r.

Definition M (A : Type) := World → Run A.

Definition ret {A} (a : A) : M A := λ w, MkRun [] w (Ok a).

Definition raise {A} (e : pyexn) : M A := λ w, MkRun [] w (Raise e).

Definition bind {A B} (m : M A) (f : A → M B) : M B := λ w,
  let r := m w in
  match outcome r with
  | Ok a =>
      let r' := f a (final r) in
      MkRun (trace r ++ trace r') (final r') (outcome r')
  | Raise e => MkRun (trace r) (final r) (Raise e)
  end.

(** [try: m  except Exception as e: h e] *)
Definition try_except {A} (m : M A) (h : pyexn → M A) : M A := λ w,
  let r := m w in
  match outcome r with
  | Ok a => r
  | Raise e =>
      let r' := h e (final r) in
      MkRun (trace r ++ trace r') (final r') (outcome r')
  end.

(** One atomic mutation. *)
Definition modify (f : World → World) : M unit := λ w, MkRun [f w] (f w) (Ok tt).

(** Reading the state. *)
Definition gets {A} (f : World → A) : M A := λ w, MkRun [] w (Ok (f w)).

(** [with self.lock: m]: the states inside [m] are not observable, only
    the one at the release of the lock is. *)
Definition with_lock {A} (m : M A) : M A := λ w,
  let r := m w in MkRun [final r] (final r) (outcome r).

#[global] Instance M_ret : MRet M := @ret.
#[global] Instance M_bind : MBind M := λ A B f m, bind m f.


(** A [Res] value as a computation: return the value or raise. *)
Definition lift_res {A} (r : Res A) : M A :=
  match r with Ok a => mret a | Raise e => raise e end.

(** [d[key]] on a [dict] keyed by [str]: raises [KeyError] when absent. *)
Definition subscript {V} (d : gmap (list N) V) (key : pystr) : M V :=
  match d !! key with Some v => mret v | None => raise (KeyError key) end.

(** ** The environment of the process

    What the code takes from outside: the clock, the uuid generator, the
    model client, [repr], the document readers, and two literals of the
    source that no property depends on. *)

(** The object returned by [client.chat.completions.create(stream=True)]:
    iterating it yields chunks, of which the relay reads
    [chunk.choices[0].delta.content] (a [str] or [None]); [broken] is the
    exception the iteration ends with, if any. *)
Record GatewayStream := MkGatewayStream {
  fragments : list (option (list N));
  broken : option pyexn;
}.

Class Environment := {
  (** the k-th reading of [time.time()] *)
  time_time : nat → N;
  (** the k-th [str(uuid.uuid4())] *)
  uuid4 : nat → list N;
  (** [repr] of a [str], as [str(KeyError(key))] shows it *)
  py_repr : list N → list N;
  (** the text returned by [_build_system_prompt] *)
  system_prompt_text : list N;
  (** [client.chat.completions.create(..., stream=True)] on a message list *)
  completions_create_stream : list Turn → Res GatewayStream;
  (** [client.chat.completions.create(..., stream=False)] followed by
      [response.choices[0].message.content] *)
  completions_create : list Turn → Res (list N);
  (** [werkzeug.utils.secure_filename] *)
  secure_filename : list N → list N;
  (** the directory [upload_folder] *)
  upload_folder : list N;
  (** [", ".join(ALLOWED_EXTENSIONS)], in the iteration order of the set *)
  joined_extensions : list N;
  (** reading a saved file as UTF-8 text; [None] when that raises *)
  read_utf8 : list N → option (list N);
  (** the paragraph texts of a saved Word document; [None] when that raises *)
  docx_paragraphs : list N → option (list (list N));
  (** the page texts of a saved PDF; [None] when that raises *)
  pdf_pages : list N → option (list (list N));
}.

(** [str(e)] *)
Definition exn_str `{Environment} (e : pyexn) : pystr :=
  match e with
  | KeyError key => py_repr key
  | PyException msg => msg
  end.

(** ** Message literals of the source (as code points) *)

(** "conversation does not exist" *)
Definition msg_no_conversation : pystr := [23545; 35805; 19981; 23384; 22312]%N.
(** "no analysis result yet" *)
Definition msg_no_result : pystr := [26242; 26080; 20998; 26512; 32467; 26524]%N.
(** "no AI reply yet" *)
Definition msg_no_reply : pystr := [26242; 26080; 65; 73; 22238; 22797]%N.
(** "calling the model failed: " *)
Definition msg_model_failed : pystr :=
  [35843; 29992; 27169; 22411; 22833; 36133; 58; 32]%N.
(** "please analyse the following material:" and two newlines *)
Definition msg_analyze_request : pystr :=
  [35831; 20998; 26512; 20197; 19979; 25945; 26448; 20869; 23481; 58; 10; 10]%N.
(** "required parameter missing" *)
Definition msg_missing_parameter : pystr :=
  [32570; 23569; 24517; 35201; 21442; 25968]%N.
(** "no file" *)
Definition msg_no_file : pystr := [27809; 26377; 25991; 20214]%N.
(** "no file selected" *)
Definition msg_no_file_selected : pystr :=
  [27809; 26377; 36873; 25321; 25991; 20214]%N.
(** "unsupported file type. supported types: " *)
Definition msg_unsupported_type : pystr :=
  [19981; 25903; 25345; 30340; 25991; 20214; 31867; 22411; 12290; 25903;
   25345; 30340; 31867; 22411; 58; 32]%N.
(** "upload succeeded, analysing" *)
Definition msg_upload_analyzing : pystr :=
  [25991; 20214; 19978; 20256; 25104; 21151; 65292; 27491; 22312; 20998;
   26512; 20013]%N.
(** "upload succeeded, but no text could be extracted" *)
Definition msg_upload_no_text : pystr :=
  [25991; 20214; 19978; 20256; 25104; 21151; 65292; 20294; 26410; 33021;
   25552; 21462; 21040; 25991; 26412; 20869; 23481]%N.

(** ** State primitives *)

Section Primitives.
Context `{!Environment}.

(** [time.time()] *)
Definition read_clock : M N := λ w,
  MkRun [] (tick_clock w) (Ok (time_time (clock_reads w))).

(** [str(uuid.uuid4())] *)
Definition draw_uuid : M (list N) := λ w,
  MkRun [] (tick_uuid w) (Ok (uuid4 (uuid_draws w))).

(** Evaluating a dict display: a new object, whose reference is returned. *)
Definition new_dict (d : pydict) : M nat := λ w,
  let w' := set_heap (λ h, h ++ [d]) w in
  MkRun [w'] w' (Ok (length (heap w))).

(** [obj.update(updates)] on the dict behind a reference: the keys of
    [updates] win. *)
Definition dict_update (l : nat) (updates : pydict) : M unit :=
  modify (set_heap (alter (λ d, updates ∪ d) l)).

(** [obj[key] = v] on the dict behind a reference. *)
Definition dict_setitem (l : nat) (key : string) (v : pyval) : M unit :=
  modify (set_heap (alter (λ d, <[key := v]> d) l)).

(** [tutor.conversations[conversation_id].append(turn)] *)
Definition conversation_append (conversation_id : pystr) (turn : Turn) : M unit :=
  convs ← gets conversations;
  turns ← subscript convs conversation_id;
  modify (set_conversations <[conversation_id := turns ++ [turn]]>).
End Primitives.

(** ** class TaskManager *)

Section TaskManager.
Context `{!Environment}.

(** [create_task(self, task_id, task_type, **kwargs)]: the keyword
    arguments come last in the dict display, so they win over the eight
    fixed keys. *)
Definition create_task (task_id task_type : pystr) (kwargs : pydict) : M (list N) :=
  with_lock (
    created_at ← read_clock;
    updated_at ← read_clock;
    l ← new_dict (kwargs ∪
           {[ "id"%string := VStr task_id;
              "type"%string := VStr task_type;
              "status"%string := VStatus PENDING;
              "progress"%string := VInt 0;
              "result"%string := VNone;
              "error"%string := VNone;
              "created_at"%string := VTime created_at;
              "updated_at"%string := VTime updated_at ]});
    modify (set_tasks <[task_id := l]>));;
  mret task_id.

(** [update_task(self, task_id, **updates)] *)
Definition update_task (task_id : pystr) (updates : pydict) : M unit :=
  with_lock (
    t ← gets tasks;
    match t !! task_id with
    | Some l =>
        dict_update l updates;;
        now ← read_clock;
        dict_setitem l "updated_at" (VTime now)
    | None => mret tt
    end).

(** [get_task(self, task_id)]: the stored object itself, or [None]. *)
Definition get_task (task_id : pystr) : M (option nat) :=
  with_lock (gets (λ w, tasks w !! task_id)).

(** The inner function [task_wrapper] of [submit_task]. *)
Definition task_wrapper (task_id : pystr) (func : M pyval) : M pyval :=
  try_except
    (update_task task_id
       {[ "status"%string := VStatus PROCESSING; "progress"%string := VInt 10 ]};;
     result ← func;
     update_task task_id
       {[ "status"%string := VStatus COMPLETED; "progress"%string := VInt 100;
          "result"%string := result ]};;
     mret result)
    (λ e,
       update_task task_id
         {[ "status"%string := VStatus FAILED; "progress"%string := VInt 0;
            "error"%string := VStr (exn_str e) ]};;
       raise e).

(** [self.executor.submit(fn)]: a worker thread of the pool calls [fn];
    what [fn] returns or raises is stored in the [Future], and the worker
    goes on. The computation below is that call, the value is the state
    of the [Future] when it is done. *)
Definition executor_submit {A} (fn : M A) : M (Res A) := λ w,
  let r := fn w in MkRun (trace r) (final r) (Ok (outcome r)).

(** [submit_task(self, task_id, func, *args, **kwargs)], with [func]
    already applied to its arguments. *)
Definition submit_task (task_id : pystr) (func : M pyval) : M (Res pyval) :=
  executor_submit (task_wrapper task_id func).
End TaskManager.

(** ** class CurriculumDrivenLearningTutor *)

(** A [str] the UTF-8 codec encodes: no code point of a surrogate, none
    beyond U+10FFFF. Writing any other [str] to the file raises
    [UnicodeEncodeError]. *)
Definition utf8_encodable (s : pystr) : bool :=
  forallb (λ c, ((c <? 55296) || (57343 <? c) && (c <=? 1114111))%N) s.

(** [json.dump(conversations, f, ensure_ascii=False, indent=2)] writes
    every id and every content as it is: it completes when all of them
    can be encoded. *)
Definition json_dumpable (convs : gmap (list N) (list Turn)) : bool :=
  forallb (λ kv, utf8_encodable kv.1
                 && forallb (λ turn, utf8_encodable (content turn)) kv.2)
          (map_to_list convs).

(** What a save of [convs] leaves in the file that held [old]. *)
Definition save_outcome (device : FileDevice) (old : FileContent)
    (convs : gmap (list N) (list Turn)) : FileContent :=
  match device with
  | DeviceRefusesOpen => old
  | DeviceFailsWrite => FileBroken
  | DeviceWrites => if json_dumpable convs then FileHolds convs else FileBroken
  end.

Section Tutor.
Context `{!Environment}.

(** [save_conversations(self)]: [open(..., 'w')] empties the file, then
    [json.dump] writes the whole map; any exception is caught and
    printed. The file is left as it was when [open] raises, broken when a
    write raises after that, and holding the map otherwise. *)
Definition save_conversations : M unit :=
  modify (λ w, set_conversations_file
                 (save_outcome (file_device w) (conversations_file w)
                    (conversations w)) w).

(** [create_conversation(self)] *)
Definition create_conversation : M (list N) :=
  with_lock (
    conversation_id ← draw_uuid;
    modify (set_conversations <[conversation_id := []]>);;
    save_conversations;;
    mret conversation_id).

(** The turn [{'role': 'system', 'content': system_prompt}]. *)
Definition system_turn : Turn := MkTurn system system_prompt_text.

(** [start_conversation(self, conversation_id, user_input)]: the
    stream of the model, or the [str] of the error message. *)
Definition start_conversation (conversation_id user_input : pystr)
    : M (list N + GatewayStream) :=
  messages ← with_lock (
    convs ← gets conversations;
    match convs !! conversation_id with
    | None => modify (set_conversations <[conversation_id := []]>)
    | Some _ => mret tt
    end;;
    conversation_append conversation_id (MkTurn user user_input);;
    convs ← gets conversations;
    turns ← subscript convs conversation_id;
    mret (system_turn :: turns));
  match completions_create_stream messages with
  | Ok response => mret (inr response)
  | Raise e => mret (inl (msg_model_failed ++ exn_str e))
  end.

(** [add_assistant_message(self, conversation_id, content)] *)
Definition add_assistant_message (conversation_id content : pystr) : M unit :=
  with_lock (
    convs ← gets conversations;
    match convs !! conversation_id with
    | Some _ =>
        conversation_append conversation_id (MkTurn assistant content);;
        save_conversations
    | None => mret tt
    end).
End Tutor.

(** ** Server-sent event streams *)

(** A chunk of a stream; on the wire, [data: ] followed by the JSON of
    [{'content': s}], [{'error': s}] or [{'done': True}] and a blank line. *)
Inductive StreamChunk :=
  | Content (s : pystr)
  | Error (s : pystr)
  | Done.

(** What a generator did: the chunks it yielded, in order, and the
    exception that ended it when it did not return. *)
Record Emitted := MkEmitted {
  chunks : list StreamChunk;
  crashed : option pyexn;
}.

Definition is_content (c : StreamChunk) : bool :=
  match c with Content _ => true | _ => false end.
Definition is_error (c : StreamChunk) : bool :=
  match c with Error _ => true | _ => false end.
Definition is_done (c : StreamChunk) : bool :=
  match c with Done => true | _ => false end.

(** The texts of the content chunks of a stream, in order. *)
Definition content_texts (cs : list StreamChunk) : list (list N) :=
  omap (λ c, match c with Content s => Some s | _ => None end) cs.

(** A generator that has yielded [before], then runs [m], then yields
    [after] and returns; an exception of [m] ends it. *)
Definition yield_around (before : list StreamChunk) (m : M unit)
    (after : list StreamChunk) : M Emitted := λ w,
  let r := m w in
  MkRun (trace r) (final r)
    (Ok match outcome r with
        | Ok _ => MkEmitted (before ++ after) None
        | Raise e => MkEmitted before (Some e)
        end).

(** An HTTP response: a JSON body with a status code, or an event stream
    produced by a generator. *)
Inductive Response :=
  | Json (code : Z) (body : gmap string pyval)
  | EventStream (generate : M Emitted).

(** ** The routes *)

Section Routes.
Context `{!Environment}.

(** *** POST /api/chat *)

(** The JSON body, by [data.get('conversation_id')] and
    [data.get('message')]. *)
Record ChatRequest := MkChatRequest {
  req_conversation_id : option (list N);
  req_message : option (list N);
}.

(** One iteration of [for chunk in response]: the state is
    [full_response] and the chunks yielded so far. *)
Definition relay_fragment (st : list N * list StreamChunk)
    (delta_content : option (list N)) : list N * list StreamChunk :=
  match delta_content with
  | Some content =>
      if truthy content
      then (st.1 ++ content, st.2 ++ [Content content])
      else st
  | None => st
  end.

(** The generator [generate] of [chat]. *)
Definition chat_generate (conversation_id user_message : pystr) : M Emitted :=
  response ← start_conversation conversation_id user_message;
  match response with
  | inl error_message => mret (MkEmitted [Error error_message] None)
  | inr response =>
      let st := foldl relay_fragment ([], []) (fragments response) in
      match broken response with
      | Some e => mret (MkEmitted st.2 (Some e))
      | None =>
          yield_around st.2
            (conversation_append conversation_id (MkTurn assistant st.1);;
             save_conversations)
            [Done]
      end
  end.

Definition chat (req : ChatRequest) : Response :=
  if negb (truthy_opt (req_conversation_id req))
     || negb (truthy_opt (req_message req))
  then Json 400 {[ "error"%string := VStr msg_missing_parameter ]}
  else EventStream (chat_generate (default [] (req_conversation_id req))
                                  (default [] (req_message req))).

(** *** analyze_file_content_async *)

Definition analyze_file_content_async
    (task_id conversation_id file_content : pystr) : M pyval :=
  try_except
    (update_task task_id
       {[ "progress"%string := VInt 30; "status"%string := VStatus PROCESSING ]};;
     with_lock (conversation_append conversation_id
                  (MkTurn user (msg_analyze_request ++ file_content)));;
     update_task task_id {[ "progress"%string := VInt 50 ]};;
     convs ← gets conversations;
     turns ← subscript convs conversation_id;
     let messages := system_turn :: turns in
     update_task task_id {[ "progress"%string := VInt 70 ]};;
     ai_response ← lift_res (completions_create messages);
     update_task task_id {[ "progress"%string := VInt 90 ]};;
     add_assistant_message conversation_id ai_response;;
     mret (VDict [ ("conversation_id"%string, VStr conversation_id);
                   ("ai_response"%string, VStr ai_response) ]))
    (λ e, raise e).

(** *** GET /api/analyze-stream/<conversation_id> *)

Definition chunk_size : nat := 50.

(** The first assistant message of [reversed(messages)]. *)
Definition last_assistant_message (messages : list Turn) : option Turn :=
  List.find (λ msg, bool_decide (role msg = assistant)) (reverse messages).

(** The chunks of [for i in range(0, len(content), chunk_size)]. *)
Definition replay_chunks (content : pystr) : list StreamChunk :=
  (λ i, Content (py_slice content i (i + chunk_size)))
    <$> py_range (length content) chunk_size.

(** The generator [generate] of [stream_analysis_result]; the pause
    [time.sleep(0.1)] after each chunk changes nothing that is modelled. *)
Definition stream_analysis_generate (conversation_id : pystr) : M Emitted :=
  convs ← gets conversations;
  match convs !! conversation_id with
  | None => mret (MkEmitted [Error msg_no_conversation] None)
  | Some [] => mret (MkEmitted [Error msg_no_result] None)
  | Some messages =>
      match last_assistant_message messages with
      | None => mret (MkEmitted [Error msg_no_reply] None)
      | Some msg => mret (MkEmitted (replay_chunks (content msg) ++ [Done]) None)
      end
  end.

Definition stream_analysis_result (conversation_id : pystr) : Response :=
  EventStream (stream_analysis_generate conversation_id).

(** *** POST /api/upload *)

(** [request.files['file']]: the client's file name and the bytes. *)
Record FileStorage := MkFileStorage {
  file_filename : list N;
  file_data : list N;
}.

Definition ALLOWED_EXTENSIONS : list (list N) :=
  [py "txt"; py "pdf"; py "docx"; py "doc"; py "md"].

(** [s.rsplit('.', 1)[1]], or [None] when ['.' in s] is false. *)
Fixpoint rsplit_dot (s : pystr) : option (list N) :=
  match s with
  | [] => None
  | c :: s' =>
      match rsplit_dot s' with
      | Some ext => Some ext
      | None => if (c =? 46)%N then Some s' else None
      end
  end.

(** [str.lower] on the letters A-Z; the comparison with the extensions
    above is the same for the other characters. *)
Definition py_lower (s : pystr) : pystr :=
  (λ c, if (65 <=? c)%N && (c <=? 90)%N then (c + 32)%N else c) <$> s.

Definition allowed_file (filename : pystr) : bool :=
  match rsplit_dot filename with
  | Some ext => bool_decide (py_lower ext ∈ ALLOWED_EXTENSIONS)
  | None => false
  end.

(** ['\n'.join(text)] *)
Fixpoint join_lines (text : list (list N)) : pystr :=
  match text with
  | [] => []
  | [line] => line
  | line :: rest => line ++ 10%N :: join_lines rest
  end.

(** [extract_text_from_file(file_path, filename)], on the bytes saved at
    [file_path]. *)
Definition extract_text_from_file (data : list N) (filename : pystr)
    : option (list N) :=
  let file_ext := default [] (py_lower <$> rsplit_dot filename) in
  if bool_decide (file_ext = py "txt") || bool_decide (file_ext = py "md")
  then read_utf8 data
  else if bool_decide (file_ext = py "docx")
  then join_lines <$> docx_paragraphs data
  else if bool_decide (file_ext = py "pdf")
  then join_lines <$> pdf_pages data
  else None.

(** [file_content[:500] + '...' if len(file_content) > 500 else file_content] *)
Definition content_preview (file_content : pystr) : pystr :=
  if (500 <? length file_content)%nat
  then py_slice file_content 0 500 ++ py "..."
  else file_content.

(** [upload_file()]: the response, and the call handed to the pool when
    a task was submitted. Failures of the file system are not modelled. *)
Definition upload_file (file : option FileStorage)
    : M (Response * option (M (Res pyval))) :=
  match file with
  | None => mret (Json 400 {[ "error"%string := VStr msg_no_file ]}, None)
  | Some file =>
      if negb (truthy (file_filename file))
      then mret (Json 400 {[ "error"%string := VStr msg_no_file_selected ]}, None)
      else if negb (allowed_file (file_filename file))
      then mret (Json 400 {[ "error"%string :=
                    VStr (msg_unsupported_type ++ joined_extensions) ]}, None)
      else
        prefix ← draw_uuid;
        let filename := prefix ++ py "_" ++ secure_filename (file_filename file) in
        let file_path := upload_folder ++ py "/" ++ filename in
        let size := VInt (Z.of_nat (length (file_data file))) in
        let file_content := extract_text_from_file (file_data file) (file_filename file) in
        conversation_id ← create_conversation;
        task_id ← draw_uuid;
        if truthy_opt file_content && truthy_opt (py_strip <$> file_content)
        then
          let text := default [] file_content in
          create_task task_id (py "file_analysis")
            {[ "filename"%string := VStr filename;
               "conversation_id"%string := VStr conversation_id;
               "file_size"%string := size ]};;
          mret (Json 200
                  {[ "message"%string := VStr msg_upload_analyzing;
                     "filename"%string := VStr filename;
                     "size"%string := size;
                     "path"%string := VStr file_path;
                     "content_preview"%string := VStr (content_preview text);
                     "conversation_id"%string := VStr conversation_id;
                     "task_id"%string := VStr task_id;
                     "has_content"%string := VBool true;
                     "status"%string := VStr (py "processing") ]},
                Some (submit_task task_id
                        (analyze_file_content_async task_id conversation_id text)))
        else
          mret (Json 200
                  {[ "message"%string := VStr msg_upload_no_text;
                     "filename"%string := VStr filename;
                     "size"%string := size;
                     "path"%string := VStr file_path;
                     "conversation_id"%string := VStr conversation_id;
                     "has_content"%string := VBool false;
                     "status"%string := VStr (py "completed") ]}, None)
  end.
End Routes.

(** ** The remaining routes *)

(** "new conversation created" *)
Definition msg_conversation_created : pystr :=
  [26032; 23545; 35805; 24050; 21019; 24314]%N.




(** [new_conversation()] of POST /api/new-conversation. *)
Definition new_conversation `{!Environment} : M Response :=
  conversation_id ← create_conversation;
  mret (Json 200 {[ "conversation_id"%string := VStr conversation_id;
                    "message"%string := VStr msg_conversation_created ]}).

(** ** Observations on task records and runs *)

Definition status_of (d : pydict) : option TaskStatus :=
  match d !! "status"%string with Some (VStatus s) => Some s | _ => None end.

Definition progress_of (d : pydict) : option Z :=
  match d !! "progress"%string with Some (VInt p) => Some p | _ => None end.

Definition is_terminal (s : TaskStatus) : bool :=
  match s with COMPLETED | FAILED => true | _ => false end.

(** Exactly one of [result] and [error] is not [None]. *)
Definition exactly_one_set (d : pydict) : bool :=
  match d !! "result"%string, d !! "error"%string with
  | Some r, Some e => xorb (is_set r) (is_set e)
  | _, _ => false
  end.

(** One observed change of a task record is allowed by the life cycle:
    the status stays, or goes from pending to processing, or from
    processing to completed or failed; while the status stays processing
    the progress does not decrease; a processing record has its progress
    in 0..100. *)
Definition lifecycle_step (d d' : pydict) : bool :=
  match status_of d, status_of d', progress_of d, progress_of d' with
  | Some s, Some s', Some p, Some p' =>
      match s, s' with
      | PENDING, PENDING => true
      | PENDING, PROCESSING => (0 <=? p') && (p' <=? 100)
      | PROCESSING, PROCESSING => (p <=? p') && (0 <=? p') && (p' <=? 100)
      | PROCESSING, COMPLETED => true
      | PROCESSING, FAILED => true
      | COMPLETED, COMPLETED => true
      | FAILED, FAILED => true
      | _, _ => false
      end
  | _, _, _, _ => false
  end.

(** Every two successive records of a history make an allowed change. *)
Fixpoint follows_lifecycle (h : list (gmap string pyval)) : bool :=
  match h with
  | d :: ((d' :: _) as rest) => lifecycle_step d d' && follows_lifecycle rest
  | _ => true
  end.

(** The successive records of a task in the observable states of a run. *)
Definition job_history {A} (r : Run A) (task_id : pystr) : list (gmap string pyval) :=
  omap (λ w, task_record w task_id) (trace r).

(** The texts carried by the chunks of [replay_chunks]. *)
Definition replay_texts (content : pystr) : list (list N) :=
  (λ i, py_slice content i (i + chunk_size)) <$> py_range (length content) chunk_size.

(** The state a computation ends in. *)
Definition after {A} (m : M A) (w : World) : World := final (m w).

(** The record [update_task] leaves: the updates merged in, keys of the
    updates winning, then [updated_at] set to the reading of the clock. *)
Definition updated (now : N) (updates d : pydict) : pydict :=
  <["updated_at"%string := VTime now]> (updates ∪ d).

(** The record [create_task] stores. *)
Definition created (task_id task_type : pystr) (kwargs : pydict) (t1 t2 : N) : pydict :=
  kwargs ∪
  {[ "id"%string := VStr task_id;
     "type"%string := VStr task_type;
     "status"%string := VStatus PENDING;
     "progress"%string := VInt 0;
     "result"%string := VNone;
     "error"%string := VNone;
     "created_at"%string := VTime t1;
     "updated_at"%string := VTime t2 ]}.

(** The fragments the live relay passes on: those that are a [str] and
    not empty, in order. *)
Definition nonempty_fragments (frags : list (option (list N))) : list (list N) :=
  filter (λ c : list N, c ≠ []) (omap id frags).

(** The keyword arguments [upload_file] passes to [create_task]. *)
Definition upload_kwargs (filename conversation_id : pystr) (file_size : Z) : pydict :=
  {[ "filename"%string := VStr filename;
     "conversation_id"%string := VStr conversation_id;
     "file_size"%string := VInt file_size ]}.

(** ** The claims as the specification words them

    Each definition below states one sentence of the specification about
    the operations above; the theorems decide them. *)

(** No update changes the status of a task in a terminal state. *)
Definition update_keeps_terminal_status : Prop :=
  ∀ (env : Environment) (w : World) (task_id : pystr) (updates d d' : pydict)
    (s : TaskStatus),
    task_record w task_id = Some d → status_of d = Some s → is_terminal s = true →
    task_record (final (update_task task_id updates w)) task_id = Some d' →
    status_of d' = Some s.

(** Creating a task under an id that is present fails and leaves the
    stored record as it was. *)
Definition create_task_rejects_duplicate : Prop :=
  ∀ (env : Environment) (w : World) (task_id task_type : pystr) (kwargs d : pydict),
    task_record w task_id = Some d →
    let r := create_task task_id task_type kwargs w in
    (∃ e, outcome r = Raise e) ∧ task_record (final r) task_id = Some d.

(** Once a task run through [submit_task] has ended, exactly one of
    [result] and [error] of its record is set. *)
Definition submitted_task_sets_exactly_one : Prop :=
  ∀ (env : Environment) (w : World) (task_id task_type : pystr)
    (func : M pyval) (d : pydict),
    task_record
      (final ((create_task task_id task_type ∅;; submit_task task_id func) w))
      task_id = Some d →
    exactly_one_set d = true.


(** The file holds the map of conversations that is in memory. *)
Definition synced (w : World) : Prop :=
  conversations_file w = FileHolds (conversations w).


(** What [get_task] returned is not altered by a later update. *)
Definition get_task_returns_snapshot : Prop :=
  ∀ (env : Environment) (w : World) (task_id : pystr) (updates : pydict) (l : nat),
    outcome (get_task task_id w) = Ok (Some l) →
    heap (final (update_task task_id updates w)) !! l = heap w !! l.

(** The preview of an upload is the first 500 characters of the text. *)
Definition preview_is_first_500 : Prop :=
  ∀ (env : Environment) (w : World) (file : FileStorage) (text : pystr)
    (body : pydict) (job : option (M (Res pyval))),
    extract_text_from_file (file_data file) (file_filename file) = Some text →
    text ≠ [] →
    outcome (upload_file (Some file) w) = Ok (Json 200 body, job) →
    body !! "content_preview"%string = Some (VStr (take 500 text)).

(** ** A concrete environment and concrete states, for the examples *)

Definition demo_env : Environment := {|
  time_time k := N.of_nat (1000 + k);
  uuid4 k := py "id" ++ [N.of_nat (48 + k)];
  py_repr s := py "'" ++ s ++ py "'";
  system_prompt_text := py "tutor";
  completions_create_stream msgs :=
    Ok (MkGatewayStream [Some (py "He"); None; Some []; Some (py "llo")] None);
  completions_create msgs := Ok (py "plan");
  secure_filename s := s;
  upload_folder := py "uploads";
  joined_extensions := py "txt, pdf, docx, doc, md";
  read_utf8 data := Some data;
  docx_paragraphs data := None;
  pdf_pages data := None;
|}.

(** The same, with a model client that raises. *)
Definition failing_env : Environment := {|
  time_time := @time_time demo_env;
  uuid4 := @uuid4 demo_env;
  py_repr := @py_repr demo_env;
  system_prompt_text := @system_prompt_text demo_env;
  completions_create_stream msgs := Raise (PyException (py "timeout"));
  completions_create msgs := Raise (PyException (py "timeout"));
  secure_filename := @secure_filename demo_env;
  upload_folder := @upload_folder demo_env;
  joined_extensions := @joined_extensions demo_env;
  read_utf8 := @read_utf8 demo_env;
  docx_paragraphs := @docx_paragraphs demo_env;
  pdf_pages := @pdf_pages demo_env;
|}.

(** The same, with a stream that breaks after its first fragment. *)
Definition broken_env : Environment := {|
  time_time := @time_time demo_env;
  uuid4 := @uuid4 demo_env;
  py_repr := @py_repr demo_env;
  system_prompt_text := @system_prompt_text demo_env;
  completions_create_stream msgs :=
    Ok (MkGatewayStream [Some (py "He")] (Some (PyException (py "reset"))));
  completions_create := @completions_create demo_env;
  secure_filename := @secure_filename demo_env;
  upload_folder := @upload_folder demo_env;
  joined_extensions := @joined_extensions demo_env;
  read_utf8 := @read_utf8 demo_env;
  docx_paragraphs := @docx_paragraphs demo_env;
  pdf_pages := @pdf_pages demo_env;
|}.


(** The state of a fresh process with no conversations file. *)
Definition fresh_world : World := MkWorld ∅ [] ∅ FileAbsent DeviceWrites 0 0.

(** A conversation map with one finished exchange of 120 characters and
    a later question, one empty conversation, and one with a question only. *)
Definition long_reply : pystr := replicate 120 97%N.

Definition replay_world : World :=
  MkWorld ∅ []
    (<[py "c1" := [MkTurn user (py "hi"); MkTurn assistant long_reply;
                   MkTurn user (py "more")]]>
     (<[py "c2" := []]>
      (<[py "c3" := [MkTurn user (py "hi")]]> ∅)))
    FileAbsent DeviceWrites 0 0.

(** What [upload_file] sets up for a task and the pool then runs: the
    creation of the record and the submitted call. *)
Definition analysis_job `{!Environment}
    (task_id filename conversation_id file_content : pystr) (file_size : Z)
    : M (Res pyval) :=
  create_task task_id (py "file_analysis")
    (upload_kwargs filename conversation_id file_size);;
  submit_task task_id
    (analyze_file_content_async task_id conversation_id file_content).

(** The state after the analysis task [t1] on conversation [c1] has run
    to completion. *)
Definition finished_world : World :=
  final (@analysis_job demo_env (py "t1") (py "f.txt") (py "c1") (py "text") 4
           replay_world).

(** An uploaded text file of 501 characters. *)
Definition long_file : FileStorage :=
  MkFileStorage (py "notes.txt") (replicate 501 97%N).

(** The number of characters of a [str] value of a JSON body. *)
Definition str_length (v : option pyval) : nat :=
  match v with Some (VStr s) => length s | _ => 0%nat end.

(** * Properties *)

(** ** Slicing a text into chunks *)

Section Slices.
Context {A : Type}.
Implicit Types s : list A.

Lemma py_slice_take_drop s i n : py_slice s i (i + n) = take n (drop i s).
Proof. unfold py_slice. f_equal. lia. Qed.

(** The first [m] slices of width [n] make up the first [m * n] elements. *)
Lemma concat_slices s n m :
  concat ((λ i, py_slice s i (i + n)) <$> ((λ k, k * n)%nat <$> seq 0 m))
  = take (m * n) s.
Proof.
  induction m as [|m IH]; [done|].
  rewrite seq_S, !fmap_app, concat_app, IH. simpl.
  rewrite app_nil_r, py_slice_take_drop, take_take_drop. f_equal. lia.
Qed.

Lemma length_py_range stop step :
  length (py_range stop step) = ((stop + step - 1) / step)%nat.
Proof. unfold py_range. by rewrite length_fmap, length_seq. Qed.

Lemma lookup_py_range stop step i :
  (i < (stop + step - 1) / step)%nat →
  py_range stop step !! i = Some (i * step)%nat.
Proof.
  intros Hi. unfold py_range.
  by rewrite list_lookup_fmap, lookup_seq_lt.
Qed.
End Slices.

(** [ceil(n / step) * step] reaches [n], and the last multiple below is
    inside [n]. *)
Lemma ceil_div_reaches (n step : nat) :
  (0 < step)%nat → (n ≤ (n + step - 1) / step * step)%nat.
Proof.
  intros Hs.
  pose proof (Nat.div_mod (n + step - 1) step ltac:(lia)) as Hdm.
  pose proof (Nat.mod_upper_bound (n + step - 1) step ltac:(lia)).
  nia.
Qed.

Lemma ceil_div_inside (n step i : nat) :
  (0 < step)%nat → (i < (n + step - 1) / step)%nat → (i * step < n)%nat.
Proof.
  intros Hs Hi.
  pose proof (Nat.div_mod (n + step - 1) step ltac:(lia)) as Hdm.
  pose proof (Nat.mod_upper_bound (n + step - 1) step ltac:(lia)).
  nia.
Qed.

Lemma replay_chunks_texts (content : pystr) :
  replay_chunks content = Content <$> replay_texts content.
Proof.
  unfold replay_chunks, replay_texts. by rewrite <- list_fmap_compose.
Qed.

Lemma content_texts_fmap (texts : list (list N)) :
  content_texts (Content <$> texts) = texts.
Proof.
  unfold content_texts. induction texts as [|t ts IH]; [done|].
  simpl. f_equal. exact IH.
Qed.

Lemma content_texts_app (cs1 cs2 : list StreamChunk) :
  content_texts (cs1 ++ cs2) = content_texts cs1 ++ content_texts cs2.
Proof. apply omap_app. Qed.

(** The replayed texts put together are the text. *)
Lemma concat_replay_texts (content : pystr) :
  concat (replay_texts content) = content.
Proof.
  unfold replay_texts, py_range. rewrite concat_slices.
  apply take_ge, ceil_div_reaches. unfold chunk_size. lia.
Qed.

(** The i-th replayed text is [content[50*i : 50*i + 50]]; it is not
    empty, and only the last one can be shorter than 50. *)
Lemma lookup_replay_texts (content : pystr) (i : nat) (seg : list N) :
  replay_texts content !! i = Some seg →
  seg = take 50 (drop (50 * i) content)
  ∧ (0 < length seg ≤ 50)%nat
  ∧ ((S i < length (replay_texts content))%nat → length seg = 50%nat).
Proof.
  unfold replay_texts. rewrite list_lookup_fmap, length_fmap, length_py_range.
  intros Hseg.
  destruct (py_range (length content) chunk_size !! i) as [j|] eqn:Hj; [|done].
  assert (i < (length content + chunk_size - 1) / chunk_size)%nat as Hi.
  { rewrite <- (length_py_range (length content) chunk_size).
    eapply lookup_lt_Some, Hj. }
  rewrite lookup_py_range in Hj by done.
  injection Hj as <-. injection Hseg as <-.
  rewrite py_slice_take_drop.
  pose proof (ceil_div_inside (length content) chunk_size i ltac:(unfold chunk_size; lia) Hi) as Hin.
  unfold chunk_size in *.
  replace (i * 50)%nat with (50 * i)%nat by lia.
  split; [done|].
  rewrite length_take, length_drop.
  split; [lia|].
  intros Hnext.
  pose proof (ceil_div_inside (length content) 50 (S i) ltac:(lia) Hnext).
  lia.
Qed.

(** ** GET /api/analyze-stream/<conversation_id> *)

Lemma last_assistant_message_found (pre post : list Turn) (msg : Turn) :
  role msg = assistant →
  Forall (λ t, role t ≠ assistant) post →
  last_assistant_message (pre ++ msg :: post) = Some msg.
Proof.
  intros Hmsg Hpost. unfold last_assistant_message.
  rewrite reverse_app, reverse_cons, <- app_assoc.
  apply Forall_reverse in Hpost.
  induction Hpost as [|t l Ht Hl IH].
  - simpl. by rewrite bool_decide_true.
  - simpl. by rewrite bool_decide_false.
Qed.


(** C4. When the transcript of the conversation has an assistant turn,
    the replay stream of [stream_analysis_result] yields as content chunks
    the successive 50-character slices of the text of the most recent
    assistant turn (the last slice may be shorter, none is empty), then
    one done chunk; the content chunks put together are that text. *)
Theorem replay_stream_segments (w : World) (conversation_id : pystr)
    (pre post : list Turn) (msg : Turn) :
  conversations w !! conversation_id = Some (pre ++ msg :: post) →
  role msg = assistant →
  Forall (λ t, role t ≠ assistant) post →
  let r := stream_analysis_generate conversation_id w in
  let segs := replay_texts (content msg) in
  stream_analysis_result conversation_id
    = EventStream (stream_analysis_generate conversation_id)
  ∧ outcome r = Ok (MkEmitted ((Content <$> segs) ++ [Done]) None)
  ∧ concat (content_texts ((Content <$> segs) ++ [Done])) = content msg
  ∧ (∀ i seg, segs !! i = Some seg →
       seg = take 50 (drop (50 * i) (content msg))
       ∧ (0 < length seg ≤ 50)%nat
       ∧ ((S i < length segs)%nat → length seg = 50%nat))
  ∧ final r = w.
Proof.
  intros Hconv Hmsg Hpost r segs. subst r segs.
  split; [done|].
  unfold stream_analysis_generate, mbind, M_bind, bind, gets. simpl.
  rewrite Hconv.
  destruct (pre ++ msg :: post) as [|t ts] eqn:Hms.
  { by destruct pre. }
  rewrite <- Hms, (last_assistant_message_found _ _ _ Hmsg Hpost). simpl.
  rewrite replay_chunks_texts.
  split; [done|]. split.
  - rewrite content_texts_app, content_texts_fmap. simpl.
    rewrite app_nil_r. apply concat_replay_texts.
  - split; [|done]. intros i seg. apply lookup_replay_texts.
Qed.

Lemma replay_stream_segments_witness :
  let r := stream_analysis_generate (py "c1") replay_world in
  let segs := replay_texts long_reply in
  stream_analysis_result (py "c1") = EventStream (stream_analysis_generate (py "c1"))
  ∧ outcome r = Ok (MkEmitted ((Content <$> segs) ++ [Done]) None)
  ∧ concat (content_texts ((Content <$> segs) ++ [Done])) = long_reply
  ∧ (∀ i seg, segs !! i = Some seg →
       seg = take 50 (drop (50 * i) long_reply)
       ∧ (0 < length seg ≤ 50)%nat
       ∧ ((S i < length segs)%nat → length seg = 50%nat))
  ∧ final r = replay_world.
Proof.
  apply (replay_stream_segments replay_world (py "c1")
           [MkTurn user (py "hi")] [MkTurn user (py "more")]
           (MkTurn assistant long_reply)).
  - reflexivity.
  - reflexivity.
  - repeat constructor. discriminate.
Defined.



(** ** Runs of the [TaskManager] methods *)

Section TaskManagerRuns.
Context `{!Environment}.
Implicit Types (w : World) (d updates kwargs : gmap string pyval).

Lemma update_task_run w task_id updates :
  update_task task_id updates w
  = MkRun [after (update_task task_id updates) w]
          (after (update_task task_id updates) w) (Ok tt).
Proof.
  unfold after, update_task, with_lock, mbind, M_bind, bind, gets. simpl.
  by destruct (tasks w !! task_id).
Qed.

Lemma tasks_after_update w task_id updates :
  tasks (after (update_task task_id updates) w) = tasks w.
Proof.
  unfold after, update_task, with_lock, mbind, M_bind, bind, gets. simpl.
  by destruct (tasks w !! task_id).
Qed.

Lemma heap_after_update w task_id updates :
  heap (after (update_task task_id updates) w)
  = match tasks w !! task_id with
    | Some l => alter (updated (time_time (clock_reads w)) updates) l (heap w)
    | None => heap w
    end.
Proof.
  unfold after, update_task, with_lock, mbind, M_bind, bind, gets. simpl.
  destruct (tasks w !! task_id) as [l|]; [|done]. simpl.
  by rewrite list_alter_alter_eq.
Qed.

Lemma conversations_after_update w task_id updates :
  conversations (after (update_task task_id updates) w) = conversations w.
Proof.
  unfold after, update_task, with_lock, mbind, M_bind, bind, gets. simpl.
  by destruct (tasks w !! task_id).
Qed.

Lemma conversations_file_after_update w task_id updates :
  conversations_file (after (update_task task_id updates) w)
  = conversations_file w.
Proof.
  unfold after, update_task, with_lock, mbind, M_bind, bind, gets. simpl.
  by destruct (tasks w !! task_id).
Qed.

Lemma file_device_after_update w task_id updates :
  file_device (after (update_task task_id updates) w) = file_device w.
Proof.
  unfold after, update_task, with_lock, mbind, M_bind, bind, gets. simpl.
  by destruct (tasks w !! task_id).
Qed.

(** The stored record after [update_task]: merged and stamped, when
    there is one. *)
Lemma task_record_after_update w task_id updates :
  task_record (after (update_task task_id updates) w) task_id
  = updated (time_time (clock_reads w)) updates <$> task_record w task_id.
Proof.
  unfold task_record.
  rewrite tasks_after_update, heap_after_update.
  destruct (tasks w !! task_id) as [l|]; [|done]. simpl.
  apply list_lookup_alter_eq.
Qed.

Lemma create_task_run w task_id task_type kwargs :
  create_task task_id task_type kwargs w
  = MkRun [after (create_task task_id task_type kwargs) w]
          (after (create_task task_id task_type kwargs) w) (Ok task_id).
Proof. reflexivity. Qed.

Lemma tasks_after_create w task_id task_type kwargs :
  tasks (after (create_task task_id task_type kwargs) w)
  = <[task_id := length (heap w)]> (tasks w).
Proof. reflexivity. Qed.

Lemma heap_after_create w task_id task_type kwargs :
  heap (after (create_task task_id task_type kwargs) w)
  = heap w ++ [created task_id task_type kwargs
                 (time_time (clock_reads w)) (time_time (S (clock_reads w)))].
Proof. reflexivity. Qed.

Lemma conversations_after_create w task_id task_type kwargs :
  conversations (after (create_task task_id task_type kwargs) w)
  = conversations w.
Proof. reflexivity. Qed.

Lemma task_record_after_create w task_id task_type kwargs :
  task_record (after (create_task task_id task_type kwargs) w) task_id
  = Some (created task_id task_type kwargs
            (time_time (clock_reads w)) (time_time (S (clock_reads w)))).
Proof.
  unfold task_record.
  rewrite tasks_after_create, heap_after_create, lookup_insert_eq. simpl.
  by rewrite lookup_app_r, Nat.sub_diag.
Qed.

Lemma get_task_run w task_id :
  get_task task_id w = MkRun [w] w (Ok (tasks w !! task_id)).
Proof. reflexivity. Qed.
End TaskManagerRuns.

(** ** create_task *)

Lemma finished_world_status :
  status_of <$> task_record finished_world (py "t1") = Some (Some COMPLETED).
Proof. vm_compute. reflexivity. Qed.

(** C6, as worded, fails: on the state in which task [t1] is completed,
    creating [t1] again raises nothing. *)
Lemma create_task_duplicate_accepted : ¬ create_task_rejects_duplicate.
Proof.
  intros Hclaim.
  assert (is_Some (task_record finished_world (py "t1"))) as [d Hd]
    by (apply (bool_decide_unpack _); vm_compute; exact I).
  destruct (Hclaim demo_env finished_world (py "t1") (py "file_analysis") ∅ d Hd)
    as [[e He] _].
  rewrite create_task_run in He. discriminate He.
Qed.

(** C6, amended. [create_task] never fails: it returns the id and binds
    it to a new record -- the keyword arguments over the fixed fields,
    which are status pending, progress 0, result and error [None] --
    whether or not the id was present. A record bound to the id before is
    replaced in the map; the old object itself is left as it was in the
    heap. *)
Theorem create_task_overwrites `{!Environment} (w : World)
    (task_id task_type : pystr) (kwargs : gmap string pyval) :
  let r := create_task task_id task_type kwargs w in
  let d := created task_id task_type kwargs
             (time_time (clock_reads w)) (time_time (S (clock_reads w))) in
  outcome r = Ok task_id
  ∧ task_record (final r) task_id = Some d
  ∧ tasks (final r) !! task_id = Some (length (heap w))
  ∧ (∀ other, other ≠ task_id → tasks (final r) !! other = tasks w !! other)
  ∧ (∀ l, (l < length (heap w))%nat → heap (final r) !! l = heap w !! l)
  ∧ (kwargs !! "status"%string = None → status_of d = Some PENDING)
  ∧ (kwargs !! "progress"%string = None → progress_of d = Some 0)
  ∧ (kwargs !! "result"%string = None → d !! "result"%string = Some VNone)
  ∧ (kwargs !! "error"%string = None → d !! "error"%string = Some VNone).
Proof.
  intros r d. subst r d. rewrite create_task_run. cbn [outcome final].
  split; [done|]. split; [apply task_record_after_create|].
  rewrite tasks_after_create, heap_after_create.
  split; [apply lookup_insert_eq|].
  split; [intros other Hne; by apply lookup_insert_ne|].
  split; [intros l Hl; by apply lookup_app_l|].
  unfold status_of, progress_of, created.
  repeat split; intros Hk; by rewrite lookup_union_r.
Qed.

Lemma create_task_overwrites_witness :
  let r := @create_task demo_env (py "t1") (py "file_analysis") ∅ finished_world in
  outcome r = Ok (py "t1")
  ∧ tasks finished_world !! py "t1" = Some 0%nat
  ∧ tasks (final r) !! py "t1" = Some 1%nat
  ∧ status_of <$> task_record (final r) (py "t1") = Some (Some PENDING)
  ∧ status_of <$> heap (final r) !! 0%nat = Some (Some COMPLETED).
Proof.
  pose proof (@create_task_overwrites demo_env finished_world (py "t1")
                (py "file_analysis") ∅) as (Hout & Hrec & Hnew & _ & Hold & Hst & _).
  cbv zeta.
  split; [exact Hout|].
  split; [vm_compute; reflexivity|].
  split; [exact Hnew|].
  split; [rewrite Hrec; simpl; f_equal; apply Hst; reflexivity|].
  rewrite Hold by (vm_compute; lia).
  vm_compute. reflexivity.
Defined.

(** ** get_task *)

(** C8, as worded, fails: the reference [get_task] returns for the
    completed task [t1] shows the record as a later update leaves it. *)
Lemma get_task_not_a_snapshot : ¬ get_task_returns_snapshot.
Proof.
  intros Hclaim.
  specialize (Hclaim demo_env finished_world (py "t1")
                {[ "status"%string := VStatus PENDING ]} 0%nat eq_refl).
  apply (f_equal (fmap status_of)) in Hclaim.
  vm_compute in Hclaim. discriminate.
Qed.

(** C8, amended. [get_task] returns the stored object itself (or [None]
    for an unknown id) and changes nothing: a later [update_task] on the
    id is visible through the reference returned before, and an
    assignment through that reference alters the record the tracker
    stores. *)
Theorem get_task_returns_live_record `{!Environment} (w : World)
    (task_id : pystr) (l : nat) (d : gmap string pyval) :
  tasks w !! task_id = Some l →
  heap w !! l = Some d →
  get_task task_id w = MkRun [w] w (Ok (Some l))
  ∧ (∀ updates,
       heap (final (update_task task_id updates w)) !! l
       = Some (updated (time_time (clock_reads w)) updates d))
  ∧ (∀ key v,
       task_record (final (dict_setitem l key v w)) task_id
       = Some (<[key := v]> d)).
Proof.
  intros Hl Hd. split; [|split].
  - by rewrite get_task_run, Hl.
  - intros updates. rewrite update_task_run. cbn [final].
    by rewrite heap_after_update, Hl, list_lookup_alter_eq, Hd.
  - intros key v. unfold task_record, dict_setitem, modify. simpl.
    by rewrite Hl; simpl; rewrite list_lookup_alter_eq, Hd.
Qed.

Lemma get_task_returns_live_record_witness :
  outcome (get_task (py "t1") finished_world) = Ok (Some 0%nat)
  ∧ status_of <$> heap finished_world !! 0%nat = Some (Some COMPLETED)
  ∧ status_of <$>
      heap (final (@update_task demo_env (py "t1")
                     {[ "status"%string := VStatus PENDING ]} finished_world))
        !! 0%nat
    = Some (Some PENDING)
  ∧ (λ d : gmap string pyval, d !! "note"%string) <$>
      task_record (final (dict_setitem 0 "note" (VInt 1) finished_world)) (py "t1")
    = Some (Some (VInt 1)).
Proof.
  assert (is_Some (heap finished_world !! 0%nat)) as [d Hd]
    by (apply (bool_decide_unpack _); vm_compute; exact I).
  pose proof (@get_task_returns_live_record demo_env finished_world (py "t1")
                0%nat d eq_refl Hd) as (Hget & Hupd & Hset).
  split; [by rewrite Hget|].
  split; [vm_compute; reflexivity|].
  split.
  - rewrite Hupd. simpl. f_equal. unfold status_of, updated.
    rewrite lookup_insert_ne by done.
    by rewrite (lookup_union_Some_l _ _ _ (VStatus PENDING)).
  - rewrite Hset. simpl. by rewrite lookup_insert_eq.
Defined.

(** ** POST /api/upload *)

Lemma content_preview_short (text : pystr) :
  (length text ≤ 500)%nat → content_preview text = text.
Proof.
  intros Hlen. unfold content_preview.
  by rewrite (proj2 (Nat.ltb_ge 500 (length text))).
Qed.

Lemma content_preview_long (text : pystr) :
  (500 < length text)%nat → content_preview text = take 500 text ++ py "...".
Proof.
  intros Hlen. unfold content_preview.
  by rewrite (proj2 (Nat.ltb_lt 500 (length text))).
Qed.

Section Upload.
Context `{!Environment}.

(** The response of an upload whose text has a character that is not
    white space. *)
Lemma upload_file_with_text (w : World) (file : FileStorage) (text : pystr) :
  truthy (file_filename file) = true →
  allowed_file (file_filename file) = true →
  extract_text_from_file (file_data file) (file_filename file) = Some text →
  truthy (py_strip text) = true →
  ∃ body job,
    outcome (upload_file (Some file) w) = Ok (Json 200 body, Some job)
    ∧ body !! "content_preview"%string = Some (VStr (content_preview text))
    ∧ body !! "status"%string = Some (VStr (py "processing")).
Proof.
  intros Hname Hallowed Htext Hstrip.
  assert (truthy text = true) as Hnonempty by (by destruct text).
  unfold upload_file. rewrite Hname, Hallowed, Htext. simpl negb. cbv iota.
  unfold mbind, M_bind, bind. cbn [outcome final draw_uuid create_conversation with_lock].
  simpl. rewrite Hnonempty, Hstrip. simpl.
  eexists _, _. split; [reflexivity|]. split; reflexivity.
Qed.
End Upload.

(** C9, as worded, fails: for the text file of 501 characters the
    preview has 503 characters, not the first 500. *)
Lemma upload_preview_not_first_500 : ¬ preview_is_first_500.
Proof.
  intros Hclaim.
  destruct (@upload_file_with_text demo_env fresh_world long_file
              (replicate 501 97%N))
    as (body & job & Hout & Hprev & _); try reflexivity.
  specialize (Hclaim demo_env fresh_world long_file (replicate 501 97%N)
                body (Some job) eq_refl ltac:(discriminate) Hout).
  rewrite Hprev in Hclaim.
  apply (f_equal str_length) in Hclaim.
  vm_compute in Hclaim. discriminate.
Qed.

(** C9, amended. For an upload whose extracted text has a character that
    is not white space, the response has status 200 and its
    [content_preview] is the whole text when the text has at most 500
    characters, and the first 500 characters followed by three dots when
    it is longer. *)
Theorem upload_content_preview `{!Environment} (w : World) (file : FileStorage)
    (text : pystr) :
  truthy (file_filename file) = true →
  allowed_file (file_filename file) = true →
  extract_text_from_file (file_data file) (file_filename file) = Some text →
  truthy (py_strip text) = true →
  ∃ body job preview,
    outcome (upload_file (Some file) w) = Ok (Json 200 body, Some job)
    ∧ body !! "content_preview"%string = Some (VStr preview)
    ∧ ((length text ≤ 500)%nat → preview = text)
    ∧ ((500 < length text)%nat → preview = take 500 text ++ py "...").
Proof.
  intros Hname Hallowed Htext Hstrip.
  destruct (upload_file_with_text w file text Hname Hallowed Htext Hstrip)
    as (body & job & Hout & Hprev & _).
  exists body, job, (content_preview text).
  split; [done|]. split; [done|].
  split; [apply content_preview_short | apply content_preview_long].
Qed.

Lemma upload_content_preview_witness :
  ∃ body job preview,
    outcome (@upload_file demo_env (Some long_file) fresh_world)
      = Ok (Json 200 body, Some job)
    ∧ body !! "content_preview"%string = Some (VStr preview)
    ∧ ((length (replicate 501 97%N) ≤ 500)%nat → preview = replicate 501 97%N)
    ∧ ((500 < length (replicate 501 97%N))%nat
       → preview = take 500 (replicate 501 97%N) ++ py "...").
Proof.
  apply (@upload_content_preview demo_env fresh_world long_file
           (replicate 501 97%N)); reflexivity.
Defined.

(** ** Runs of the tutor methods *)

Section TutorRuns.
Context `{!Environment}.
Implicit Types (w : World).

Lemma conversation_append_run w conversation_id turn turns :
  conversations w !! conversation_id = Some turns →
  conversation_append conversation_id turn w
  = MkRun [set_conversations <[conversation_id := turns ++ [turn]]> w]
          (set_conversations <[conversation_id := turns ++ [turn]]> w) (Ok tt).
Proof.
  intros Hc. unfold conversation_append, mbind, M_bind, bind, gets, subscript.
  simpl. rewrite Hc. reflexivity.
Qed.

Lemma conversation_append_absent w conversation_id turn :
  conversations w !! conversation_id = None →
  conversation_append conversation_id turn w
  = MkRun [] w (Raise (KeyError conversation_id)).
Proof.
  intros Hc. unfold conversation_append, mbind, M_bind, bind, gets, subscript.
  simpl. rewrite Hc. reflexivity.
Qed.

Lemma set_conversations_insert_insert w conversation_id (a b : list Turn) :
  set_conversations <[conversation_id := a]>
    (set_conversations <[conversation_id := b]> w)
  = set_conversations <[conversation_id := a]> w.
Proof.
  unfold set_conversations. simpl. by rewrite insert_insert_eq.
Qed.

Lemma start_conversation_run w conversation_id user_input :
  let turns := default [] (conversations w !! conversation_id)
               ++ [MkTurn user user_input] in
  let w' := set_conversations <[conversation_id := turns]> w in
  start_conversation conversation_id user_input w
  = MkRun [w'] w'
      (Ok match completions_create_stream (system_turn :: turns) with
          | Ok response => inr response
          | Raise e => inl (msg_model_failed ++ exn_str e)
          end).
Proof.
  intros turns w'. subst turns w'.
  unfold start_conversation, with_lock, mbind, M_bind, bind, gets.
  cbn [outcome final trace].
  destruct (conversations w !! conversation_id) as [turns|] eqn:Hc.
  - cbn [outcome final trace ret mret M_ret].
    rewrite (conversation_append_run _ _ _ turns Hc).
    cbn [outcome final trace]. unfold subscript.
    cbn [conversations set_conversations]. rewrite lookup_insert_eq.
    cbn [outcome final trace ret mret M_ret app].
    destruct (completions_create_stream _); reflexivity.
  - cbn [outcome final trace modify].
    rewrite (conversation_append_run _ _ _ []) by apply lookup_insert_eq.
    cbn [outcome final trace]. unfold subscript.
    cbn [conversations set_conversations]. rewrite lookup_insert_eq.
    cbn [outcome final trace ret mret M_ret app].
    rewrite set_conversations_insert_insert.
    destruct (completions_create_stream _); reflexivity.
Qed.

Lemma save_conversations_run w :
  let w' := set_conversations_file
              (save_outcome (file_device w) (conversations_file w)
                 (conversations w)) w in
  save_conversations w = MkRun [w'] w' (Ok tt).
Proof. reflexivity. Qed.

Lemma task_record_after_save w task_id :
  task_record (after save_conversations w) task_id = task_record w task_id.
Proof. reflexivity. Qed.

Lemma conversations_after_save w :
  conversations (after save_conversations w) = conversations w.
Proof. reflexivity. Qed.

Lemma conversations_file_after_save w :
  conversations_file (after save_conversations w)
  = save_outcome (file_device w) (conversations_file w) (conversations w).
Proof. reflexivity. Qed.

Lemma add_assistant_message_run w conversation_id text turns :
  conversations w !! conversation_id = Some turns →
  let w' := after save_conversations
              (set_conversations
                 <[conversation_id := turns ++ [MkTurn assistant text]]> w) in
  add_assistant_message conversation_id text w = MkRun [w'] w' (Ok tt).
Proof.
  intros Hc w'. subst w'.
  unfold add_assistant_message, with_lock, mbind, M_bind, bind, gets.
  cbn [outcome final trace]. rewrite Hc.
  rewrite (conversation_append_run _ _ _ turns Hc).
  reflexivity.
Qed.

Lemma add_assistant_message_absent w conversation_id text :
  conversations w !! conversation_id = None →
  add_assistant_message conversation_id text w = MkRun [w] w (Ok tt).
Proof.
  intros Hc.
  unfold add_assistant_message, with_lock, mbind, M_bind, bind, gets.
  cbn [outcome final trace]. by rewrite Hc.
Qed.
End TutorRuns.

(** ** POST /api/chat *)

Lemma relay_fragments_fold (frags : list (option (list N))) :
  ∀ (full : list N) (yielded : list StreamChunk),
    foldl relay_fragment (full, yielded) frags
    = (full ++ concat (nonempty_fragments frags),
       yielded ++ (Content <$> nonempty_fragments frags)).
Proof.
  unfold nonempty_fragments.
  induction frags as [|frag frags IH]; intros full yielded.
  - simpl. by rewrite !app_nil_r.
  - simpl. destruct frag as [[|c cs]|]; simpl.
    + apply IH.
    + rewrite IH, <- !app_assoc. reflexivity.
    + apply IH.
Qed.

Section ChatRuns.
Context `{!Environment}.
Implicit Types (w : World).

(** The three ways the generator of [chat] runs. *)
Lemma chat_generate_run w conversation_id user_message :
  let turns := default [] (conversations w !! conversation_id)
               ++ [MkTurn user user_message] in
  let w1 := set_conversations <[conversation_id := turns]> w in
  chat_generate conversation_id user_message w
  = match completions_create_stream (system_turn :: turns) with
    | Raise e =>
        MkRun [w1] w1 (Ok (MkEmitted [Error (msg_model_failed ++ exn_str e)] None))
    | Ok (MkGatewayStream frags (Some e)) =>
        MkRun [w1] w1
          (Ok (MkEmitted (Content <$> nonempty_fragments frags) (Some e)))
    | Ok (MkGatewayStream frags None) =>
        let reply := MkTurn assistant (concat (nonempty_fragments frags)) in
        let w2 := set_conversations <[conversation_id := turns ++ [reply]]> w1 in
        MkRun [w1; w2; after save_conversations w2] (after save_conversations w2)
          (Ok (MkEmitted ((Content <$> nonempty_fragments frags) ++ [Done]) None))
    end.
Proof.
  intros turns w1.
  unfold chat_generate, mbind, M_bind, bind.
  rewrite start_conversation_run. fold turns. fold w1.
  cbn [outcome final trace].
  destruct (completions_create_stream (system_turn :: turns))
    as [[frags [e|]]|e]; cbn [fragments broken];
    rewrite ?relay_fragments_fold; cbn [fst snd app]; try reflexivity.
  unfold yield_around.
  assert (conversations w1 !! conversation_id = Some turns) as Hc
    by apply lookup_insert_eq.
  rewrite (conversation_append_run _ _ _ turns Hc).
  reflexivity.
Qed.
End ChatRuns.

Lemma filter_done_contents (texts : list (list N)) :
  filter (λ c, is_done c = true) (Content <$> texts) = [].
Proof. induction texts as [|t ts IH]; [done|]. simpl. exact IH. Qed.

Lemma filter_error_contents (texts : list (list N)) :
  filter (λ c, is_error c = true) (Content <$> texts) = [].
Proof. induction texts as [|t ts IH]; [done|]. simpl. exact IH. Qed.




(** C10. A chat request with a conversation id that is not in the map and
    a non-empty message is answered with the event stream, not with an
    error response: [start_conversation] binds the id to a new transcript
    that holds just the user turn, leaves the other conversations as they
    were, and calls the model on the system turn followed by that user
    turn; whatever the model does, the transcript of the id then starts
    with the user turn. *)
Theorem chat_creates_unknown_conversation `{!Environment} (w : World)
    (conversation_id user_message : pystr) :
  truthy conversation_id = true →
  truthy user_message = true →
  conversations w !! conversation_id = None →
  let r := start_conversation conversation_id user_message w in
  chat (MkChatRequest (Some conversation_id) (Some user_message))
    = EventStream (chat_generate conversation_id user_message)
  ∧ conversations (final r) !! conversation_id = Some [MkTurn user user_message]
  ∧ (∀ other, other ≠ conversation_id →
       conversations (final r) !! other = conversations w !! other)
  ∧ outcome r
    = Ok match completions_create_stream
                 [system_turn; MkTurn user user_message] with
         | Ok response => inr response
         | Raise e => inl (msg_model_failed ++ exn_str e)
         end
  ∧ (∃ emitted rest,
       outcome (chat_generate conversation_id user_message w) = Ok emitted
       ∧ conversations (final (chat_generate conversation_id user_message w))
           !! conversation_id
         = Some (MkTurn user user_message :: rest)).
Proof.
  intros Hid Hmsg Hnone r. subst r.
  split.
  { unfold chat. simpl. by rewrite Hid, Hmsg. }
  rewrite start_conversation_run, chat_generate_run, Hnone.
  cbn [outcome final default app conversations set_conversations].
  split; [apply lookup_insert_eq|].
  split; [intros other Hne; by apply lookup_insert_ne|].
  split; [done|].
  destruct (completions_create_stream _) as [[frags [e|]]|e];
    cbn [outcome final conversations set_conversations].
  - eexists _, []. split; [reflexivity|]. apply lookup_insert_eq.
  - eexists _, [_]. split; [reflexivity|].
    rewrite conversations_after_save. apply lookup_insert_eq.
  - eexists _, []. split; [reflexivity|]. apply lookup_insert_eq.
Qed.

Lemma chat_creates_unknown_conversation_witness :
  let r := @start_conversation demo_env (py "new") (py "hi") replay_world in
  conversations replay_world !! py "new" = None
  ∧ conversations (final r) !! py "new" = Some [MkTurn user (py "hi")]
  ∧ @chat demo_env (MkChatRequest (Some (py "new")) (Some (py "hi")))
    = EventStream (@chat_generate demo_env (py "new") (py "hi")).
Proof.
  pose proof (@chat_creates_unknown_conversation demo_env replay_world
                (py "new") (py "hi") eq_refl eq_refl eq_refl)
    as (Hchat & Hnew & _).
  cbv zeta. split; [reflexivity|]. split; [exact Hnew | exact Hchat].
Defined.

(** ** Persistence of the conversations *)


(** A map with a text that cannot be encoded cannot be dumped. *)
Lemma json_dumpable_false (convs : gmap (list N) (list Turn))
    (conversation_id : pystr) (turns : list Turn) (turn : Turn) :
  convs !! conversation_id = Some turns →
  turn ∈ turns →
  utf8_encodable (content turn) = false →
  json_dumpable convs = false.
Proof.
  intros Hc Hin Henc. unfold json_dumpable.
  destruct (forallb _ (map_to_list convs)) eqn:Hall; [|done].
  rewrite forallb_forall in Hall.
  apply elem_of_map_to_list, list_elem_of_In in Hc.
  specialize (Hall _ Hc). cbn [fst snd] in Hall.
  apply andb_true_iff in Hall as [_ Hturns].
  rewrite forallb_forall in Hturns.
  apply list_elem_of_In in Hin. specialize (Hturns _ Hin). congruence.
Qed.



(** ** Runs of a submitted task *)

Lemma lookup_updated (now : N) (updates d : gmap string pyval) (key : string) :
  key ≠ "updated_at"%string →
  updated now updates d !! key
  = match updates !! key with Some v => Some v | None => d !! key end.
Proof.
  intros Hk. unfold updated. rewrite lookup_insert_ne by done.
  rewrite lookup_union. by destruct (updates !! key), (d !! key).
Qed.

(** *** Composing runs *)

Section Composition.
Context {A B : Type}.
Implicit Types (w : World).

Lemma bind_run_ok (m : M A) (f : A → M B) w t1 w1 a t2 w2 r :
  m w = MkRun t1 w1 (Ok a) →
  f a w1 = MkRun t2 w2 r →
  (m ≫= f) w = MkRun (t1 ++ t2) w2 r.
Proof.
  intros Hm Hf. unfold mbind, M_bind, bind. rewrite Hm. simpl. by rewrite Hf.
Qed.

Lemma bind_run_raise (m : M A) (f : A → M B) w t1 w1 e :
  m w = MkRun t1 w1 (Raise e) →
  (m ≫= f) w = MkRun t1 w1 (Raise e).
Proof. intros Hm. unfold mbind, M_bind, bind. by rewrite Hm. Qed.

Lemma try_except_run_ok (m : M A) (h : pyexn → M A) w t1 w1 a :
  m w = MkRun t1 w1 (Ok a) →
  try_except m h w = MkRun t1 w1 (Ok a).
Proof. intros Hm. unfold try_except. by rewrite Hm. Qed.

Lemma try_except_run_raise (m : M A) (h : pyexn → M A) w t1 w1 e t2 w2 r :
  m w = MkRun t1 w1 (Raise e) →
  h e w1 = MkRun t2 w2 r →
  try_except m h w = MkRun (t1 ++ t2) w2 r.
Proof. intros Hm Hh. unfold try_except. rewrite Hm. simpl. by rewrite Hh. Qed.

Lemma with_lock_run (m : M A) w t1 w1 r :
  m w = MkRun t1 w1 r →
  with_lock m w = MkRun [w1] w1 r.
Proof. intros Hm. unfold with_lock. by rewrite Hm. Qed.
End Composition.

(** To compute a run step by step: first the run, then its comparison
    with the expected one. *)
Lemma run_eq_trans {A} (r1 r2 r3 : Run A) : r1 = r2 → r2 = r3 → r1 = r3.
Proof. congruence. Qed.

Section SubmittedRuns.
Context `{!Environment}.
Implicit Types (w : World) (d : gmap string pyval).

(** The run of [task_wrapper]: the first update, the work, and the
    update that records how the work ended. *)
Lemma task_wrapper_run w task_id (func : M pyval) :
  let w0 := after (update_task task_id
              {[ "status"%string := VStatus PROCESSING;
                 "progress"%string := VInt 10 ]}) w in
  let r := func w0 in
  task_wrapper task_id func w
  = match outcome r with
    | Ok v =>
        let w1 := after (update_task task_id
                    {[ "status"%string := VStatus COMPLETED;
                       "progress"%string := VInt 100;
                       "result"%string := v ]}) (final r) in
        MkRun (w0 :: trace r ++ [w1]) w1 (Ok v)
    | Raise e =>
        let w1 := after (update_task task_id
                    {[ "status"%string := VStatus FAILED;
                       "progress"%string := VInt 0;
                       "error"%string := VStr (exn_str e) ]}) (final r) in
        MkRun (w0 :: trace r ++ [w1]) w1 (Raise e)
    end.
Proof.
  intros w0 r. subst w0 r.
  unfold task_wrapper.
  destruct (func _) as [t wf [v|e]] eqn:Hf; cbn [outcome final trace].
  - eapply run_eq_trans.
    eapply try_except_run_ok.
    eapply bind_run_ok; [apply update_task_run|].
    eapply bind_run_ok; [exact Hf|].
    eapply bind_run_ok; [apply update_task_run|].
    reflexivity.
    reflexivity.
  - eapply run_eq_trans.
    eapply try_except_run_raise.
    eapply bind_run_ok; [apply update_task_run|].
    eapply bind_run_raise. exact Hf.
    eapply bind_run_ok; [apply update_task_run|]. reflexivity.
    reflexivity.
Qed.

(** The three ways [analyze_file_content_async] runs: the conversation
    is missing, the model client raises, or the reply is stored. *)
Lemma analyze_file_content_async_run w task_id conversation_id file_content :
  let w1 := after (update_task task_id
              {[ "progress"%string := VInt 30;
                 "status"%string := VStatus PROCESSING ]}) w in
  analyze_file_content_async task_id conversation_id file_content w
  = match conversations w !! conversation_id with
    | None => MkRun [w1; w1] w1 (Raise (KeyError conversation_id))
    | Some turns =>
        let turns' := turns ++ [MkTurn user (msg_analyze_request ++ file_content)] in
        let w2 := set_conversations <[conversation_id := turns']> w1 in
        let w3 := after (update_task task_id {[ "progress"%string := VInt 50 ]}) w2 in
        let w4 := after (update_task task_id {[ "progress"%string := VInt 70 ]}) w3 in
        match completions_create (system_turn :: turns') with
        | Raise e => MkRun [w1; w2; w3; w4] w4 (Raise e)
        | Ok ai_response =>
            let w5 := after (update_task task_id
                        {[ "progress"%string := VInt 90 ]}) w4 in
            let w6 := after save_conversations
                        (set_conversations
                           <[conversation_id :=
                               turns' ++ [MkTurn assistant ai_response]]> w5) in
            MkRun [w1; w2; w3; w4; w5; w6] w6
              (Ok (VDict [ ("conversation_id"%string, VStr conversation_id);
                           ("ai_response"%string, VStr ai_response) ]))
        end
    end.
Proof.
  intros w1. subst w1.
  set (w1 := after (update_task task_id _) w).
  assert (conversations w1 !! conversation_id = conversations w !! conversation_id)
    as Hw1 by (unfold w1; by rewrite conversations_after_update).
  unfold analyze_file_content_async.
  destruct (conversations w !! conversation_id) as [turns|] eqn:Hc.
  - destruct (completions_create _) as [ai|e] eqn:Hai.
    + eapply run_eq_trans.
      eapply try_except_run_ok.
      eapply bind_run_ok; [apply update_task_run|]. fold w1.
      eapply bind_run_ok;
        [eapply with_lock_run, conversation_append_run, Hw1|].
      eapply bind_run_ok; [apply update_task_run|].
      eapply bind_run_ok; [reflexivity|]. cbv beta.
      rewrite conversations_after_update.
      cbn [conversations set_conversations].
      eapply bind_run_ok.
      { unfold subscript. rewrite lookup_insert_eq. reflexivity. }
      eapply bind_run_ok; [apply update_task_run|].
      eapply bind_run_ok; [rewrite Hai; reflexivity|].
      eapply bind_run_ok; [apply update_task_run|].
      eapply bind_run_ok.
      { eapply add_assistant_message_run.
        rewrite !conversations_after_update.
        cbn [conversations set_conversations]. apply lookup_insert_eq. }
      reflexivity.
      reflexivity.
    + eapply run_eq_trans.
      eapply try_except_run_raise; [|reflexivity].
      eapply bind_run_ok; [apply update_task_run|]. fold w1.
      eapply bind_run_ok;
        [eapply with_lock_run, conversation_append_run, Hw1|].
      eapply bind_run_ok; [apply update_task_run|].
      eapply bind_run_ok; [reflexivity|]. cbv beta.
      rewrite conversations_after_update.
      cbn [conversations set_conversations].
      eapply bind_run_ok.
      { unfold subscript. rewrite lookup_insert_eq. reflexivity. }
      eapply bind_run_ok; [apply update_task_run|].
      eapply bind_run_raise. rewrite Hai. reflexivity.
      reflexivity.
  - eapply run_eq_trans.
    eapply try_except_run_raise; [|reflexivity].
    eapply bind_run_ok; [apply update_task_run|]. fold w1.
    eapply bind_run_raise.
    eapply with_lock_run, conversation_append_absent, Hw1.
    reflexivity.
Qed.
End SubmittedRuns.

Section AnalysisJob.
Context `{!Environment}.
Implicit Types (w : World).

(** The run of the whole job, in its three cases. *)
Lemma analysis_job_trace w task_id filename conversation_id file_content file_size :
  let wc := after (create_task task_id (py "file_analysis")
                     (upload_kwargs filename conversation_id file_size)) w in
  let w0 := after (update_task task_id
              {[ "status"%string := VStatus PROCESSING;
                 "progress"%string := VInt 10 ]}) wc in
  let r := analyze_file_content_async task_id conversation_id file_content w0 in
  let run := analysis_job task_id filename conversation_id file_content file_size w in
  outcome run = Ok (outcome r)
  ∧ ∃ updates,
      trace run
      = wc :: w0 :: trace r ++ [after (update_task task_id updates) (final r)]
      ∧ final run = after (update_task task_id updates) (final r)
      ∧ updates = match outcome r with
                  | Ok v => {[ "status"%string := VStatus COMPLETED;
                               "progress"%string := VInt 100;
                               "result"%string := v ]}
                  | Raise e => {[ "status"%string := VStatus FAILED;
                                  "progress"%string := VInt 0;
                                  "error"%string := VStr (exn_str e) ]}
                  end.
Proof.
  intros wc w0 r run. subst wc w0 r run.
  unfold analysis_job, submit_task, executor_submit, mbind, M_bind, bind.
  rewrite create_task_run. cbn [outcome final trace].
  rewrite task_wrapper_run. cbv zeta.
  destruct (outcome (analyze_file_content_async _ _ _ _)) as [v|e];
    cbn [outcome final trace app]; (split; [done|]); eexists; done.
Qed.
End AnalysisJob.

(** ** The life cycle of a task *)

Section JobHistory.
Context `{!Environment}.
Implicit Types (w : World).

Lemma task_record_set_conversations w f task_id :
  task_record (set_conversations f w) task_id = task_record w task_id.
Proof. reflexivity. Qed.

Lemma task_record_after_update_Some w task_id updates d :
  task_record w task_id = Some d →
  task_record (after (update_task task_id updates) w) task_id
  = Some (updated (time_time (clock_reads w)) updates d).
Proof. intros Hd. by rewrite task_record_after_update, Hd. Qed.

(** The successive records of the task in the three runs of the job. *)
Lemma analysis_job_history w task_id filename conversation_id file_content
    file_size :
  let run := analysis_job task_id filename conversation_id file_content
               file_size w in
  ∃ n0 n1 n3 n4 n5 n6 : N,
    let dc := created task_id (py "file_analysis")
                (upload_kwargs filename conversation_id file_size)
                (time_time (clock_reads w)) (time_time (S (clock_reads w))) in
    let d0 := updated n0 {[ "status"%string := VStatus PROCESSING;
                            "progress"%string := VInt 10 ]} dc in
    let d1 := updated n1 {[ "progress"%string := VInt 30;
                            "status"%string := VStatus PROCESSING ]} d0 in
    let d3 := updated n3 {[ "progress"%string := VInt 50 ]} d1 in
    let d4 := updated n4 {[ "progress"%string := VInt 70 ]} d3 in
    let d5 := updated n5 {[ "progress"%string := VInt 90 ]} d4 in
    let failed e d :=
      updated n6 {[ "status"%string := VStatus FAILED;
                    "progress"%string := VInt 0;
                    "error"%string := VStr (exn_str e) ]} d in
    match conversations w !! conversation_id with
    | None =>
        job_history run task_id
          = [dc; d0; d1; d1; failed (KeyError conversation_id) d1]
        ∧ task_record (final run) task_id
          = Some (failed (KeyError conversation_id) d1)
    | Some turns =>
        match completions_create
                (system_turn :: turns
                   ++ [MkTurn user (msg_analyze_request ++ file_content)]) with
        | Raise e =>
            job_history run task_id = [dc; d0; d1; d1; d3; d4; failed e d4]
            ∧ task_record (final run) task_id = Some (failed e d4)
        | Ok ai_response =>
            let done :=
              updated n6
                {[ "status"%string := VStatus COMPLETED;
                   "progress"%string := VInt 100;
                   "result"%string :=
                     VDict [ ("conversation_id"%string, VStr conversation_id);
                             ("ai_response"%string, VStr ai_response) ] ]} d5 in
            job_history run task_id = [dc; d0; d1; d1; d3; d4; d5; d5; done]
            ∧ task_record (final run) task_id = Some done
        end
    end.
Proof.
intros run. subst run.
destruct (analysis_job_trace w task_id filename conversation_id file_content
            file_size) as (_ & updates & Htrace & Hfinal & Hupd).
unfold job_history. rewrite Hfinal, Htrace. clear Htrace Hfinal. subst updates.
rewrite analyze_file_content_async_run.
rewrite conversations_after_update, conversations_after_create.
set (wc := after (create_task _ _ _) w).
set (w0 := after (update_task _ _) wc).
set (w1 := after (update_task _ _) w0).
pose proof (task_record_after_create w task_id (py "file_analysis")
              (upload_kwargs filename conversation_id file_size)) as Hc.
fold wc in Hc.
pose proof (task_record_after_update_Some wc task_id
              {[ "status"%string := VStatus PROCESSING;
                 "progress"%string := VInt 10 ]} _ Hc) as H0.
pose proof (task_record_after_update_Some w0 task_id
              {[ "progress"%string := VInt 30;
                 "status"%string := VStatus PROCESSING ]} _ H0) as H1.
fold w0 in H0. fold w0 w1 in H1.
exists (time_time (clock_reads wc)), (time_time (clock_reads w0)).
destruct (conversations w !! conversation_id) as [turns|]; cbv zeta.
- set (w2 := set_conversations _ w1).
  set (w3 := after (update_task _ _) w2).
  set (w4 := after (update_task _ _) w3).
  assert (task_record w2 task_id = task_record w1 task_id) as H2 by reflexivity.
  rewrite H1 in H2.
  pose proof (task_record_after_update_Some w2 task_id
                {[ "progress"%string := VInt 50 ]} _ H2) as H3.
  fold w3 in H3.
  pose proof (task_record_after_update_Some w3 task_id
                {[ "progress"%string := VInt 70 ]} _ H3) as H4.
  fold w4 in H4.
  exists (time_time (clock_reads w2)), (time_time (clock_reads w3)).
  destruct (completions_create _) as [ai|e].
  + set (w5 := after (update_task _ _) w4).
    set (w6 := after save_conversations _).
    pose proof (task_record_after_update_Some w4 task_id
                  {[ "progress"%string := VInt 90 ]} _ H4) as H5.
    fold w5 in H5.
    assert (task_record w6 task_id = task_record w5 task_id) as H6
      by (unfold w6; by rewrite task_record_after_save).
    rewrite H5 in H6.
    exists (time_time (clock_reads w4)), (time_time (clock_reads w6)).
    cbn [outcome final trace app omap list_omap].
    rewrite (task_record_after_update_Some w6 task_id _ _ H6).
    rewrite Hc, H0, H1, H2, H3, H4, H5, H6.
    split; reflexivity.
  + exists 0%N, (time_time (clock_reads w4)).
    cbn [outcome final trace app omap list_omap].
    rewrite (task_record_after_update_Some w4 task_id _ _ H4).
    rewrite Hc, H0, H1, H2, H3, H4.
    split; reflexivity.
- exists 0%N, 0%N, 0%N, (time_time (clock_reads w1)).
  cbn [outcome final trace app omap list_omap].
  rewrite (task_record_after_update_Some w1 task_id _ _ H1).
  rewrite Hc, H0, H1.
  split; reflexivity.
Qed.
End JobHistory.

(** C1, as worded, fails: [update_task] on the completed task [t1] with
    a status of pending changes the stored status. *)
Lemma update_task_changes_terminal_status : ¬ update_keeps_terminal_status.
Proof.
  intros Hclaim.
  assert (is_Some (task_record finished_world (py "t1"))) as [d Hd]
    by (apply (bool_decide_unpack _); vm_compute; exact I).
  pose proof finished_world_status as Hst.
  rewrite Hd in Hst. injection Hst as Hst.
  pose proof (@task_record_after_update demo_env finished_world (py "t1")
                {[ "status"%string := VStatus PENDING ]}) as Hupd.
  rewrite Hd in Hupd. cbn [fmap option_fmap option_map] in Hupd.
  unfold after in Hupd.
  specialize (Hclaim demo_env finished_world (py "t1")
                {[ "status"%string := VStatus PENDING ]} d _ COMPLETED
                Hd Hst eq_refl Hupd).
  unfold status_of in Hclaim. rewrite lookup_updated in Hclaim by done.
  discriminate Hclaim.
Qed.

Section Lifecycle.
Context `{!Environment}.
Implicit Types (w : World).

(** [update_task] checks nothing: a status among the updates becomes the
    stored status, whatever the record held. *)
Lemma update_task_sets_status w task_id updates d s :
  task_record w task_id = Some d →
  updates !! "status"%string = Some (VStatus s) →
  status_of <$> task_record (final (update_task task_id updates w)) task_id
  = Some (Some s).
Proof.
  intros Hd Hs. rewrite update_task_run. cbn [final].
  rewrite task_record_after_update, Hd. simpl.
  unfold status_of. rewrite lookup_updated by done. by rewrite Hs.
Qed.
End Lifecycle.

(** C1, amended. [update_task] merges any update and enforces no order of
    statuses. For a task created by [create_task] with the keyword
    arguments of [upload_file] and run once through [submit_task] with
    [analyze_file_content_async], the successive records other threads
    can observe start pending with progress 0, change only from pending
    to processing and from processing to completed or failed, show a
    progress within 0..100 that does not decrease while the status stays
    processing, and end completed with progress 100 or failed with
    progress 0. *)
Theorem analysis_job_follows_lifecycle `{!Environment} (w : World)
    (task_id filename conversation_id file_content : pystr) (file_size : Z) :
  let run := analysis_job task_id filename conversation_id file_content
               file_size w in
  let history := job_history run task_id in
  follows_lifecycle history = true
  ∧ (∃ d0 rest, history = d0 :: rest
       ∧ status_of d0 = Some PENDING ∧ progress_of d0 = Some 0)
  ∧ (∃ d, task_record (final run) task_id = Some d
       ∧ last history = Some d
       ∧ (status_of d = Some COMPLETED ∧ progress_of d = Some 100
          ∨ status_of d = Some FAILED ∧ progress_of d = Some 0))
  ∧ (∀ w' updates d s,
       task_record w' task_id = Some d →
       updates !! "status"%string = Some (VStatus s) →
       status_of <$> task_record (final (update_task task_id updates w')) task_id
       = Some (Some s)).
Proof.
  intros run history. subst run history.
  destruct (analysis_job_history w task_id filename conversation_id
              file_content file_size) as (n0 & n1 & n3 & n4 & n5 & n6 & Hh).
  cbv zeta in Hh.
  split; [|split; [|split]];
    [| | |intros w' updates d s; apply update_task_sets_status].
  all: destruct (conversations w !! conversation_id) as [turns|];
    [destruct (completions_create _) as [ai|e]|];
    destruct Hh as [Hh Hf]; rewrite ?Hh, ?Hf.
  1-3: vm_compute; reflexivity.
  1-3: eexists _, _; split; [reflexivity|]; split; vm_compute; reflexivity.
  - eexists. split; [reflexivity|]. split; [reflexivity|].
    left. split; vm_compute; reflexivity.
  - eexists. split; [reflexivity|]. split; [reflexivity|].
    right. split; vm_compute; reflexivity.
  - eexists. split; [reflexivity|]. split; [reflexivity|].
    right. split; vm_compute; reflexivity.
Qed.

Lemma analysis_job_follows_lifecycle_witness :
  follows_lifecycle
    (job_history
       (@analysis_job demo_env (py "t1") (py "f.txt") (py "c1") (py "text") 4
          replay_world) (py "t1")) = true
  ∧ status_of <$>
      task_record
        (final (@update_task demo_env (py "t1")
                  {[ "status"%string := VStatus PENDING ]} finished_world))
        (py "t1")
    = Some (Some PENDING).
Proof.
  pose proof (@analysis_job_follows_lifecycle demo_env replay_world (py "t1")
                (py "f.txt") (py "c1") (py "text") 4) as (Hlife & _ & _ & Hupd).
  split; [exact Hlife|].
  assert (is_Some (task_record finished_world (py "t1"))) as [d Hd]
    by (apply (bool_decide_unpack _); vm_compute; exact I).
  exact (Hupd finished_world {[ "status"%string := VStatus PENDING ]} d PENDING
           Hd eq_refl).
Defined.

(** ** The record a submitted task ends with *)

(** C2, as worded, fails: a work function that returns [None] leaves a
    completed record in which neither [result] nor [error] is set. *)
Lemma none_result_sets_neither : ¬ submitted_task_sets_exactly_one.
Proof.
  intros Hclaim.
  set (rec := task_record
                (final ((@create_task demo_env (py "t1") (py "file_analysis") ∅;;
                         @submit_task demo_env (py "t1") (mret VNone))
                          fresh_world))
                (py "t1")).
  assert (is_Some rec) as [d Hd]
    by (apply (bool_decide_unpack _); vm_compute; exact I).
  assert (exactly_one_set <$> rec = Some false) as Hnone
    by (vm_compute; reflexivity).
  pose proof (Hclaim demo_env fresh_world (py "t1") (py "file_analysis")
                (mret VNone) d Hd) as Hone.
  rewrite Hd in Hnone. cbn [fmap option_fmap option_map] in Hnone.
  congruence.
Qed.

(** C2, amended. A task run through [submit_task], with a work function
    that leaves a record under the id of the task: the call made by the
    pool returns, with what the work function returned or raised kept in
    the future. When the work function returned [v], the final record is
    completed with progress 100, [result] is [v] and [error] is what the
    work function left; when it raised [e], the final record is failed
    with progress 0, [error] is [str(e)] and [result] is what the work
    function left. So for a record whose [error] was left at [None], a
    completed task has exactly one of [result] and [error] set when [v] is
    not [None], and none of them when [v] is [None]; for a record whose
    [result] was left at [None], a failed task has exactly one set. *)
Theorem submit_task_final_record `{!Environment} (w : World)
    (task_id : pystr) (func : M pyval) (d1 : gmap string pyval) :
  let w0 := final (update_task task_id
              {[ "status"%string := VStatus PROCESSING;
                 "progress"%string := VInt 10 ]} w) in
  let r := func w0 in
  task_record (final r) task_id = Some d1 →
  let run := submit_task task_id func w in
  outcome run = Ok (outcome r)
  ∧ ∃ d, task_record (final run) task_id = Some d
      ∧ match outcome r with
        | Ok v =>
            status_of d = Some COMPLETED ∧ progress_of d = Some 100
            ∧ d !! "result"%string = Some v
            ∧ d !! "error"%string = d1 !! "error"%string
            ∧ (d1 !! "error"%string = Some VNone →
                 exactly_one_set d = is_set v)
        | Raise e =>
            status_of d = Some FAILED ∧ progress_of d = Some 0
            ∧ d !! "error"%string = Some (VStr (exn_str e))
            ∧ d !! "result"%string = d1 !! "result"%string
            ∧ (d1 !! "result"%string = Some VNone →
                 exactly_one_set d = true)
        end.
Proof.
  intros w0 r Hd1 run. subst w0 r run.
  unfold submit_task, executor_submit. rewrite task_wrapper_run.
  unfold after in *.
  destruct (func _) as [t wf [v|e]]; cbn [outcome final trace] in *.
  - split; [done|]. eexists. split.
    { rewrite update_task_run. cbn [final].
      apply task_record_after_update_Some, Hd1. }
    unfold status_of, progress_of, exactly_one_set.
    rewrite !lookup_updated by done. cbn.
    repeat split. intros ->. by destruct v.
  - split; [done|]. eexists. split.
    { rewrite update_task_run. cbn [final].
      apply task_record_after_update_Some, Hd1. }
    unfold status_of, progress_of, exactly_one_set.
    rewrite !lookup_updated by done. cbn.
    repeat split. by intros ->.
Qed.

Lemma submit_task_final_record_witness :
  let w := after (@create_task demo_env (py "t1") (py "file_analysis")
                    (upload_kwargs (py "f.txt") (py "c1") 4)) replay_world in
  status_of <$>
    task_record
      (final (@submit_task demo_env (py "t1")
                (@analyze_file_content_async demo_env (py "t1") (py "c1")
                   (py "text")) w)) (py "t1")
  = Some (Some COMPLETED)
  ∧ status_of <$>
      task_record
        (final (@submit_task failing_env (py "t1")
                  (@analyze_file_content_async failing_env (py "t1") (py "c1")
                     (py "text")) w)) (py "t1")
    = Some (Some FAILED).
Proof.
  intros w. split.
  - set (mid := task_record
              (final (@analyze_file_content_async demo_env (py "t1") (py "c1")
                        (py "text")
                        (final (@update_task demo_env (py "t1")
                                  {[ "status"%string := VStatus PROCESSING;
                                     "progress"%string := VInt 10 ]} w))))
              (py "t1")).
    assert (is_Some mid) as [d1 Hd1]
      by (apply (bool_decide_unpack _); vm_compute; exact I).
    destruct (@submit_task_final_record demo_env w (py "t1")
                (@analyze_file_content_async demo_env (py "t1") (py "c1")
                   (py "text")) d1 Hd1)
      as (_ & d & Hd & Hfields).
    rewrite Hd. cbn [fmap option_fmap option_map]. f_equal.
    destruct (outcome _) as [v|e] eqn:Hout; [apply Hfields|].
    vm_compute in Hout. discriminate Hout.
  - set (mid := task_record
              (final (@analyze_file_content_async failing_env (py "t1") (py "c1")
                        (py "text")
                        (final (@update_task failing_env (py "t1")
                                  {[ "status"%string := VStatus PROCESSING;
                                     "progress"%string := VInt 10 ]} w))))
              (py "t1")).
    assert (is_Some mid) as [d1 Hd1]
      by (apply (bool_decide_unpack _); vm_compute; exact I).
    destruct (@submit_task_final_record failing_env w (py "t1")
                (@analyze_file_content_async failing_env (py "t1") (py "c1")
                   (py "text")) d1 Hd1)
      as (_ & d & Hd & Hfields).
    rewrite Hd. cbn [fmap option_fmap option_map]. f_equal.
    destruct (outcome _) as [v|e] eqn:Hout; [|apply Hfields].
    vm_compute in Hout. discriminate Hout.
Defined.

(** * Further properties of the code *)

(** ** update_task, create_task and the task route *)

(** [update_task] on an id that is not in the map does nothing: it
    returns normally, the state is as before and the clock is not read. *)
Theorem update_task_unknown_id `{!Environment} (w : World) (task_id : pystr)
    (updates : gmap string pyval) :
  tasks w !! task_id = None →
  update_task task_id updates w = MkRun [w] w (Ok tt).
Proof.
  intros Hnone.
  unfold update_task, with_lock, mbind, M_bind, bind, gets. simpl.
  by rewrite Hnone.
Qed.

Lemma update_task_unknown_id_witness :
  @update_task demo_env (py "zz") {[ "progress"%string := VInt 50 ]} finished_world
  = MkRun [finished_world] finished_world (Ok tt).
Proof.
  apply (@update_task_unknown_id demo_env finished_world (py "zz")).
  vm_compute. reflexivity.
Defined.

(** [update_task] on a stored record: every key of the updates takes the
    new value, [updated_at] takes the reading of the clock, every other
    key keeps its value; the map of tasks, the conversations and the file
    are as before, and nothing is raised. *)
Theorem update_task_merges `{!Environment} (w : World) (task_id : pystr)
    (updates d : gmap string pyval) :
  task_record w task_id = Some d →
  let r := update_task task_id updates w in
  outcome r = Ok tt
  ∧ tasks (final r) = tasks w
  ∧ conversations (final r) = conversations w
  ∧ conversations_file (final r) = conversations_file w
  ∧ ∃ d', task_record (final r) task_id = Some d'
      ∧ d' !! "updated_at"%string = Some (VTime (time_time (clock_reads w)))
      ∧ (∀ key v, key ≠ "updated_at"%string → updates !! key = Some v →
           d' !! key = Some v)
      ∧ (∀ key, key ≠ "updated_at"%string → updates !! key = None →
           d' !! key = d !! key).
Proof.
  intros Hd r. subst r. rewrite update_task_run. cbn [outcome final].
  split; [done|]. split; [apply tasks_after_update|].
  split; [apply conversations_after_update|].
  split; [apply conversations_file_after_update|].
  eexists. split; [by apply task_record_after_update_Some|].
  split; [apply lookup_insert_eq|].
  split.
  - intros key v Hk Hv. by rewrite lookup_updated, Hv.
  - intros key Hk Hv. by rewrite lookup_updated, Hv.
Qed.

Lemma update_task_merges_witness :
  let r := @update_task demo_env (py "t1") {[ "progress"%string := VInt 50 ]}
             finished_world in
  (task_record (final r) (py "t1") ≫= λ d, d !! "progress"%string)
    = Some (VInt 50)
  ∧ (task_record (final r) (py "t1") ≫= status_of) = Some COMPLETED.
Proof.
  assert (is_Some (task_record finished_world (py "t1"))) as [d Hd]
    by (apply (bool_decide_unpack _); vm_compute; exact I).
  pose proof finished_world_status as Hst. rewrite Hd in Hst.
  injection Hst as Hst.
  destruct (@update_task_merges demo_env finished_world (py "t1")
              {[ "progress"%string := VInt 50 ]} d Hd)
    as (_ & _ & _ & _ & d' & Hd' & _ & Hset & Hkeep).
  cbv zeta. rewrite Hd'. cbn [mbind option_bind]. split.
  - by apply Hset.
  - unfold status_of in *. rewrite Hkeep by done. exact Hst.
Defined.

(** A keyword argument of [create_task] wins over the fixed field of the
    same name: the stored record holds its value. *)
Theorem create_task_kwargs_override `{!Environment} (w : World)
    (task_id task_type : pystr) (kwargs : gmap string pyval) (key : string)
    (v : pyval) :
  kwargs !! key = Some v →
  task_record (final (create_task task_id task_type kwargs w)) task_id
    ≫= (λ d, d !! key)
  = Some v.
Proof.
  intros Hk. rewrite create_task_run. cbn [final].
  rewrite task_record_after_create. cbn [mbind option_bind].
  unfold created. by apply lookup_union_Some_l.
Qed.

Lemma create_task_kwargs_override_witness :
  task_record
    (final (@create_task demo_env (py "t9") (py "file_analysis")
              {[ "status"%string := VStatus FAILED ]} fresh_world)) (py "t9")
    ≫= status_of
  = Some FAILED.
Proof.
  pose proof (@create_task_kwargs_override demo_env fresh_world (py "t9")
                (py "file_analysis") {[ "status"%string := VStatus FAILED ]}
                "status" (VStatus FAILED) eq_refl) as Hk.
  destruct (task_record _ _) as [d|]; [|discriminate Hk].
  cbn [mbind option_bind] in *. unfold status_of. by rewrite Hk.
Defined.



(** ** The store of conversations *)

(** POST /api/new-conversation: the response carries the id drawn from
    the uuid generator; that id is bound to an empty transcript, the other
    conversations and the tasks are as before, and the file is rewritten
    from the new map: it then holds that map when it can be opened and the
    map can be encoded, keeps its content when it cannot be opened, and
    is broken otherwise. *)
Theorem new_conversation_creates_empty `{!Environment} (w : World) :
  let r := new_conversation w in
  let conversation_id := uuid4 (uuid_draws w) in
  outcome r
    = Ok (Json 200 {[ "conversation_id"%string := VStr conversation_id;
                      "message"%string := VStr msg_conversation_created ]})
  ∧ conversations (final r) !! conversation_id = Some []
  ∧ (∀ other, other ≠ conversation_id →
       conversations (final r) !! other = conversations w !! other)
  ∧ tasks (final r) = tasks w
  ∧ conversations_file (final r)
    = save_outcome (file_device w) (conversations_file w)
        (conversations (final r)).
Proof.
  intros r conversation_id. subst r conversation_id.
  unfold new_conversation, create_conversation, with_lock, mbind, M_bind, bind,
    draw_uuid.
  cbn [outcome final trace modify save_conversations].
  cbn [outcome final conversations tasks conversations_file file_device
       set_conversations set_conversations_file tick_uuid uuid_draws].
  split; [done|]. split; [apply lookup_insert_eq|].
  split; [intros other Hne; by apply lookup_insert_ne|]. done.
Qed.

Lemma new_conversation_creates_empty_witness :
  conversations (final (@new_conversation demo_env replay_world)) !! (py "id0")
    = Some []
  ∧ synced (final (@new_conversation demo_env replay_world)).
Proof.
  pose proof (@new_conversation_creates_empty demo_env replay_world)
    as (_ & Hnew & _ & _ & Hfile).
  split; [exact Hnew|].
  unfold synced. rewrite Hfile. vm_compute. reflexivity.
Defined.

(** A save that fails is not fatal: whatever the file system does and
    whatever the map holds, [add_assistant_message] appends the turn in
    memory and returns normally. The file keeps its content when it cannot
    be opened; it is left broken when a write fails after it was opened,
    which is always so when the appended text cannot be encoded (it has a
    lone surrogate). *)
Theorem save_failure_is_not_fatal (w : World) (conversation_id text : pystr)
    (turns : list Turn) :
  conversations w !! conversation_id = Some turns →
  let r := add_assistant_message conversation_id text w in
  outcome r = Ok tt
  ∧ conversations (final r) !! conversation_id
    = Some (turns ++ [MkTurn assistant text])
  ∧ (file_device w = DeviceRefusesOpen →
       conversations_file (final r) = conversations_file w)
  ∧ (file_device w = DeviceFailsWrite →
       conversations_file (final r) = FileBroken)
  ∧ (file_device w = DeviceWrites → utf8_encodable text = false →
       conversations_file (final r) = FileBroken).
Proof.
  intros Hc r. subst r.
  rewrite (add_assistant_message_run _ _ _ turns Hc). cbn [outcome final].
  rewrite conversations_after_save, conversations_file_after_save.
  cbn [conversations conversations_file file_device set_conversations].
  split; [done|]. split; [apply lookup_insert_eq|].
  split; [by intros ->|]. split; [by intros ->|].
  intros -> Henc. unfold save_outcome.
  rewrite (json_dumpable_false _ conversation_id
             (turns ++ [MkTurn assistant text]) (MkTurn assistant text));
    [done | apply lookup_insert_eq | | exact Henc].
  apply elem_of_app. right. apply list_elem_of_singleton. done.
Qed.

Lemma save_failure_is_not_fatal_witness :
  let r := add_assistant_message (py "c3") [55296%N] replay_world in
  outcome r = Ok tt
  ∧ conversations (final r) !! py "c3"
    = Some ([MkTurn user (py "hi")] ++ [MkTurn assistant [55296%N]])
  ∧ conversations_file (final r) = FileBroken.
Proof.
  pose proof (save_failure_is_not_fatal replay_world (py "c3") [55296%N]
                [MkTurn user (py "hi")] eq_refl)
    as (Hout & Hconv & _ & _ & Hbroken).
  cbv zeta. split; [exact Hout|]. split; [exact Hconv|].
  apply Hbroken; reflexivity.
Defined.

(** ** The transcript after a chat exchange *)

(** After a chat stream that ran to its end, the transcript of the
    conversation is what it was, then the user turn, then the assistant
    turn with everything the model sent; the other conversations and the
    tasks are as before. *)
Theorem chat_exchange_transcript `{!Environment} (w : World)
    (conversation_id user_message : pystr) (turns : list Turn)
    (frags : list (option (list N))) :
  conversations w !! conversation_id = Some turns →
  completions_create_stream
    (system_turn :: turns ++ [MkTurn user user_message])
    = Ok (MkGatewayStream frags None) →
  let r := chat_generate conversation_id user_message w in
  conversations (final r) !! conversation_id
    = Some (turns ++ [MkTurn user user_message;
                      MkTurn assistant (concat (nonempty_fragments frags))])
  ∧ (∀ other, other ≠ conversation_id →
       conversations (final r) !! other = conversations w !! other)
  ∧ tasks (final r) = tasks w.
Proof.
  intros Hc Hstream r. subst r.
  rewrite chat_generate_run, Hc.
  change (default [] (Some turns)) with turns. rewrite Hstream. cbv zeta.
  cbn [final]. rewrite conversations_after_save.
  cbn [conversations set_conversations].
  split; [by rewrite lookup_insert_eq, <- app_assoc|].
  split.
  - intros other Hne. by rewrite !lookup_insert_ne.
  - reflexivity.
Qed.

Lemma chat_exchange_transcript_witness :
  conversations (final (@chat_generate demo_env (py "c3") (py "why") replay_world))
    !! py "c3"
  = Some ([MkTurn user (py "hi")]
          ++ [MkTurn user (py "why");
              MkTurn assistant
                (concat (nonempty_fragments
                           [Some (py "He"); None; Some []; Some (py "llo")]))]).
Proof.
  apply (@chat_exchange_transcript demo_env replay_world (py "c3") (py "why")
           [MkTurn user (py "hi")]); reflexivity.
Defined.

(** When the iteration over the stream of the model ends with an
    exception, the generator of [chat] has yielded the content chunks
    received so far and neither a done nor an error chunk; the transcript
    keeps the user turn without a reply, and the file is not written. *)
Theorem chat_broken_stream `{!Environment} (w : World)
    (conversation_id user_message : pystr) (frags : list (option (list N)))
    (e : pyexn) :
  let turns := default [] (conversations w !! conversation_id) in
  completions_create_stream
    (system_turn :: turns ++ [MkTurn user user_message])
    = Ok (MkGatewayStream frags (Some e)) →
  let r := chat_generate conversation_id user_message w in
  outcome r = Ok (MkEmitted (Content <$> nonempty_fragments frags) (Some e))
  ∧ filter (λ c, is_done c = true) (Content <$> nonempty_fragments frags) = []
  ∧ filter (λ c, is_error c = true) (Content <$> nonempty_fragments frags) = []
  ∧ conversations (final r) !! conversation_id
    = Some (turns ++ [MkTurn user user_message])
  ∧ conversations_file (final r) = conversations_file w.
Proof.
  intros turns Hstream r. subst r turns.
  rewrite chat_generate_run. cbv zeta. rewrite Hstream.
  cbn [outcome final conversations conversations_file set_conversations].
  split; [done|]. split; [apply filter_done_contents|].
  split; [apply filter_error_contents|].
  split; [apply lookup_insert_eq | done].
Qed.

Lemma chat_broken_stream_witness :
  let r := @chat_generate broken_env (py "c3") (py "why") replay_world in
  outcome r
    = Ok (MkEmitted (Content <$> nonempty_fragments [Some (py "He")])
            (Some (PyException (py "reset"))))
  ∧ conversations (final r) !! py "c3"
    = Some ([MkTurn user (py "hi")] ++ [MkTurn user (py "why")]).
Proof.
  pose proof (@chat_broken_stream broken_env replay_world (py "c3") (py "why")
                [Some (py "He")] (PyException (py "reset")) eq_refl)
    as (Hout & _ & _ & Hconv & _).
  split; [exact Hout | exact Hconv].
Defined.

(** ** What the analysis leaves behind *)

(** A successful analysis returns the conversation id and the reply,
    leaves the transcript extended by the request (the fixed prefix
    followed by the file content) and by the reply, and has rewritten the
    file from the resulting map: the file then holds that map when it can
    be opened and the map can be encoded. *)
Theorem analysis_success `{!Environment} (w : World)
    (task_id conversation_id file_content ai_response : pystr)
    (turns : list Turn) :
  conversations w !! conversation_id = Some turns →
  completions_create
    (system_turn :: turns
       ++ [MkTurn user (msg_analyze_request ++ file_content)])
    = Ok ai_response →
  let r := analyze_file_content_async task_id conversation_id file_content w in
  outcome r
    = Ok (VDict [ ("conversation_id"%string, VStr conversation_id);
                  ("ai_response"%string, VStr ai_response) ])
  ∧ conversations (final r) !! conversation_id
    = Some (turns ++ [MkTurn user (msg_analyze_request ++ file_content);
                      MkTurn assistant ai_response])
  ∧ (∀ other, other ≠ conversation_id →
       conversations (final r) !! other = conversations w !! other)
  ∧ conversations_file (final r)
    = save_outcome (file_device w) (conversations_file w)
        (conversations (final r))
  ∧ (file_device w = DeviceWrites →
     json_dumpable (conversations (final r)) = true → synced (final r)).
Proof.
  intros Hc Hai r. subst r.
  rewrite analyze_file_content_async_run, Hc. cbv zeta. rewrite Hai.
  cbn [outcome final].
  split; [done|].
  assert (conversations_file
            (after save_conversations
               (set_conversations
                  <[conversation_id :=
                      (turns ++ [MkTurn user (msg_analyze_request ++ file_content)])
                      ++ [MkTurn assistant ai_response]]>
                  (after (update_task task_id {[ "progress"%string := VInt 90 ]})
                     (after (update_task task_id {[ "progress"%string := VInt 70 ]})
                        (after (update_task task_id
                                  {[ "progress"%string := VInt 50 ]})
                           (set_conversations
                              <[conversation_id :=
                                  turns ++ [MkTurn user
                                              (msg_analyze_request ++ file_content)]]>
                              (after (update_task task_id
                                        {[ "progress"%string := VInt 30;
                                           "status"%string := VStatus PROCESSING ]})
                                 w)))))))
          = save_outcome (file_device w) (conversations_file w)
              (conversations
                 (after save_conversations
                    (set_conversations
                       <[conversation_id :=
                           (turns ++ [MkTurn user
                                        (msg_analyze_request ++ file_content)])
                           ++ [MkTurn assistant ai_response]]>
                       (after (update_task task_id
                                 {[ "progress"%string := VInt 90 ]})
                          (after (update_task task_id
                                    {[ "progress"%string := VInt 70 ]})
                             (after (update_task task_id
                                       {[ "progress"%string := VInt 50 ]})
                                (set_conversations
                                   <[conversation_id :=
                                       turns ++ [MkTurn user
                                                   (msg_analyze_request
                                                    ++ file_content)]]>
                                   (after (update_task task_id
                                             {[ "progress"%string := VInt 30;
                                                "status"%string :=
                                                  VStatus PROCESSING ]})
                                      w))))))))) as Hfile.
  { rewrite conversations_file_after_save.
    cbn [file_device conversations_file set_conversations].
    rewrite !file_device_after_update, !conversations_file_after_update.
    cbn [file_device conversations_file set_conversations].
    by rewrite !file_device_after_update, !conversations_file_after_update. }
  split; [|split; [|split; [exact Hfile|]]].
  - rewrite conversations_after_save.
    cbn [conversations set_conversations].
    by rewrite lookup_insert_eq, <- app_assoc.
  - intros other Hne. rewrite conversations_after_save.
    cbn [conversations set_conversations].
    rewrite !conversations_after_update.
    cbn [conversations set_conversations].
    rewrite !conversations_after_update.
    by rewrite !lookup_insert_ne.
  - intros Hdev Hdump. unfold synced. rewrite Hfile, Hdev.
    unfold save_outcome. by rewrite Hdump.
Qed.

Lemma analysis_success_witness :
  let r := @analyze_file_content_async demo_env (py "t1") (py "c3") (py "text")
             replay_world in
  conversations (final r) !! py "c3"
  = Some ([MkTurn user (py "hi")]
          ++ [MkTurn user (msg_analyze_request ++ py "text");
              MkTurn assistant (py "plan")])
  ∧ synced (final r).
Proof.
  pose proof (@analysis_success demo_env replay_world (py "t1") (py "c3")
                (py "text") (py "plan") [MkTurn user (py "hi")] eq_refl eq_refl)
    as (_ & Hconv & _ & _ & Hsync).
  split; [exact Hconv|].
  apply Hsync; [reflexivity|]. vm_compute. reflexivity.
Defined.

(** A failing analysis re-raises. When the conversation is missing it
    raises the [KeyError] of the id and the conversations are as before;
    when the model client raises, the transcript keeps the request without
    a reply and the file is not written. *)
Theorem analysis_failure `{!Environment} (w : World)
    (task_id conversation_id file_content : pystr) :
  let r := analyze_file_content_async task_id conversation_id file_content w in
  (conversations w !! conversation_id = None →
     outcome r = Raise (KeyError conversation_id)
     ∧ conversations (final r) = conversations w)
  ∧ (∀ turns e,
       conversations w !! conversation_id = Some turns →
       completions_create
         (system_turn :: turns
            ++ [MkTurn user (msg_analyze_request ++ file_content)])
         = Raise e →
       outcome r = Raise e
       ∧ conversations (final r) !! conversation_id
         = Some (turns ++ [MkTurn user (msg_analyze_request ++ file_content)])
       ∧ conversations_file (final r) = conversations_file w).
Proof.
  intros r. subst r. rewrite analyze_file_content_async_run. split.
  - intros ->. cbn [outcome final].
    split; [done | apply conversations_after_update].
  - intros turns e -> Hraise. cbv zeta. rewrite Hraise. cbn [outcome final].
    split; [done|].
    rewrite !conversations_after_update, !conversations_file_after_update.
    cbn [conversations conversations_file set_conversations].
    rewrite conversations_file_after_update.
    split; [apply lookup_insert_eq | done].
Qed.

Lemma analysis_failure_witness :
  outcome (@analyze_file_content_async demo_env (py "t1") (py "zz") (py "text")
             replay_world)
    = Raise (KeyError (py "zz"))
  ∧ outcome (@analyze_file_content_async failing_env (py "t1") (py "c3")
               (py "text") replay_world)
    = Raise (PyException (py "timeout")).
Proof.
  split.
  - apply (@analysis_failure demo_env replay_world (py "t1") (py "zz") (py "text")).
    reflexivity.
  - apply (@analysis_failure failing_env replay_world (py "t1") (py "c3")
             (py "text")) with (turns := [MkTurn user (py "hi")]); reflexivity.
Defined.

(** The record of an analysis task whose work failed: failed, progress
    0, [result] at [None], and [error] the [str] of the exception -- the
    [repr] of the conversation id when the conversation is missing, the
    message of the model client when that raised. The future of the pool
    holds the exception. *)
Theorem analysis_job_failure_record `{!Environment} (w : World)
    (task_id filename conversation_id file_content : pystr) (file_size : Z)
    (e : pyexn) :
  let run := analysis_job task_id filename conversation_id file_content
               file_size w in
  (conversations w !! conversation_id = None ∧ e = KeyError conversation_id
   ∨ ∃ turns, conversations w !! conversation_id = Some turns
       ∧ completions_create
           (system_turn :: turns
              ++ [MkTurn user (msg_analyze_request ++ file_content)])
         = Raise e) →
  outcome run = Ok (Raise e)
  ∧ ∃ d, task_record (final run) task_id = Some d
      ∧ status_of d = Some FAILED ∧ progress_of d = Some 0
      ∧ d !! "error"%string = Some (VStr (exn_str e))
      ∧ d !! "result"%string = Some VNone.
Proof.
  intros run Hcase. subst run.
  destruct (analysis_job_history w task_id filename conversation_id
              file_content file_size) as (n0 & n1 & n3 & n4 & n5 & n6 & Hh).
  destruct (analysis_job_trace w task_id filename conversation_id
              file_content file_size) as (Hout & _).
  rewrite Hout. clear Hout.
  rewrite analyze_file_content_async_run.
  rewrite conversations_after_update, conversations_after_create.
  cbv zeta in Hh.
  destruct Hcase as [[Hnone ->]|(turns & Hturns & Hraise)].
  - rewrite Hnone in *. destruct Hh as [_ Hf]. cbn [outcome].
    split; [done|]. eexists. split; [exact Hf|].
    repeat split; vm_compute; reflexivity.
  - rewrite Hturns in *. cbv zeta. rewrite Hraise in *.
    destruct Hh as [_ Hf]. cbn [outcome].
    split; [done|]. eexists. split; [exact Hf|].
    unfold status_of, progress_of.
    rewrite !(lookup_updated n6) by done.
    repeat split; vm_compute; reflexivity.
Qed.

Lemma analysis_job_failure_record_witness :
  outcome (@analysis_job failing_env (py "t1") (py "f.txt") (py "c3") (py "text") 4
             replay_world)
  = Ok (Raise (PyException (py "timeout"))).
Proof.
  apply (@analysis_job_failure_record failing_env replay_world (py "t1")
           (py "f.txt") (py "c3") (py "text") 4 (PyException (py "timeout"))).
  right. exists [MkTurn user (py "hi")]. split; reflexivity.
Defined.

(** ** The replay stream in general *)

(** Whatever the state and the id, the generator of
    [stream_analysis_result] changes nothing, raises nothing, and yields
    either one error chunk or content chunks followed by one done chunk:
    the stream always ends with exactly one terminal chunk. *)
Theorem replay_stream_shape (w : World) (conversation_id : pystr) :
  ∃ cs, stream_analysis_generate conversation_id w
        = MkRun [] w (Ok (MkEmitted cs None))
    ∧ ((∃ message, cs = [Error message])
       ∨ (∃ texts, cs = (Content <$> texts) ++ [Done])).
Proof.
  unfold stream_analysis_generate, mbind, M_bind, bind, gets. simpl.
  destruct (conversations w !! conversation_id) as [[|t ts]|].
  - eexists. split; [reflexivity|]. left. by eexists.
  - destruct (last_assistant_message (t :: ts)) as [msg|].
    + eexists. split; [reflexivity|]. right.
      exists (replay_texts (content msg)). by rewrite replay_chunks_texts.
    + eexists. split; [reflexivity|]. left. by eexists.
  - eexists. split; [reflexivity|]. left. by eexists.
Qed.

(** A text of [n] characters is replayed in [ceil(n / 50)] chunks; an
    empty text in none, so that its stream is the done chunk alone. *)
Theorem replay_chunk_count (text : pystr) :
  length (replay_chunks text) = ((length text + 49) / 50)%nat
  ∧ (text = [] → replay_chunks text ++ [Done] = [Done]).
Proof.
  split.
  - unfold replay_chunks. rewrite length_fmap, length_py_range.
    unfold chunk_size. f_equal. lia.
  - by intros ->.
Qed.

Lemma replay_chunk_count_witness :
  length (replay_chunks long_reply) = 3%nat
  ∧ replay_chunks [] ++ [Done] = [Done].
Proof.
  destruct (replay_chunk_count long_reply) as [Hlen _].
  destruct (replay_chunk_count []) as [_ Hnil].
  split; [rewrite Hlen; reflexivity | exact (Hnil eq_refl)].
Defined.

(** ** File names and uploads *)

Lemma rsplit_dot_no_dot (s : pystr) : 46%N ∉ s → rsplit_dot s = None.
Proof.
  induction s as [|c s IH]; [done|].
  intros Hnot. apply not_elem_of_cons in Hnot as [Hc Hs].
  simpl. rewrite (IH Hs).
  destruct (c =? 46)%N eqn:Heq; [|done].
  apply N.eqb_eq in Heq. congruence.
Qed.

Lemma rsplit_dot_last (name ext : pystr) :
  46%N ∉ ext → rsplit_dot (name ++ 46%N :: ext) = Some ext.
Proof.
  intros Hext. induction name as [|c name IH].
  - simpl. by rewrite (rsplit_dot_no_dot ext Hext).
  - simpl. by rewrite IH.
Qed.

(** [allowed_file] looks at what follows the last dot, without regard to
    case: a name is allowed exactly when that extension, lowered, is one
    of txt, pdf, docx, doc and md; a name without a dot is not allowed. *)
Theorem allowed_file_by_extension (name ext : pystr) :
  (46%N ∉ ext →
     allowed_file (name ++ 46%N :: ext)
     = bool_decide (py_lower ext ∈ ALLOWED_EXTENSIONS))
  ∧ (46%N ∉ name → allowed_file name = false).
Proof.
  unfold allowed_file. split.
  - intros Hext. by rewrite rsplit_dot_last.
  - intros Hname. by rewrite rsplit_dot_no_dot.
Qed.

Lemma allowed_file_by_extension_witness :
  allowed_file (py "Notes.v2" ++ 46%N :: py "TXT") = true
  ∧ allowed_file (py "txt") = false.
Proof.
  destruct (allowed_file_by_extension (py "Notes.v2") (py "TXT")) as [Hext _].
  destruct (allowed_file_by_extension (py "txt") []) as [_ Hnone].
  split.
  - rewrite Hext; [reflexivity|]. vm_compute. intros Hin.
    repeat (apply elem_of_cons in Hin as [Hin|Hin]; [discriminate Hin|]).
    by apply elem_of_nil in Hin.
  - apply Hnone. vm_compute. intros Hin.
    repeat (apply elem_of_cons in Hin as [Hin|Hin]; [discriminate Hin|]).
    by apply elem_of_nil in Hin.
Defined.

(** A name with the extension doc passes [allowed_file], and
    [extract_text_from_file] has no reader for it: the text is [None]
    whatever the bytes are. *)
Theorem doc_files_have_no_text `{!Environment} (name ext data : pystr) :
  46%N ∉ ext → py_lower ext = py "doc" →
  allowed_file (name ++ 46%N :: ext) = true
  ∧ extract_text_from_file data (name ++ 46%N :: ext) = None.
Proof.
  intros Hext Hdoc. split.
  - unfold allowed_file. rewrite rsplit_dot_last by done.
    rewrite Hdoc. reflexivity.
  - unfold extract_text_from_file. rewrite rsplit_dot_last by done.
    simpl. rewrite Hdoc. reflexivity.
Qed.

Lemma doc_files_have_no_text_witness :
  allowed_file (py "old" ++ 46%N :: py "DOC") = true
  ∧ @extract_text_from_file demo_env (py "bytes") (py "old" ++ 46%N :: py "DOC")
    = None.
Proof.
  apply (@doc_files_have_no_text demo_env (py "old") (py "DOC") (py "bytes")).
  - vm_compute. intros Hin.
    repeat (apply elem_of_cons in Hin as [Hin|Hin]; [discriminate Hin|]).
    by apply elem_of_nil in Hin.
  - reflexivity.
Defined.

Section UploadRuns.
Context `{!Environment}.
Implicit Types (w : World).

Lemma uuid_draws_after_save w :
  uuid_draws (after save_conversations w) = uuid_draws w.
Proof.
  unfold after, save_conversations, modify. by destruct (file_device w).
Qed.

Lemma create_conversation_run w :
  let conversation_id := uuid4 (uuid_draws w) in
  let w' := after save_conversations
              (set_conversations <[conversation_id := []]> (tick_uuid w)) in
  create_conversation w = MkRun [w'] w' (Ok conversation_id).
Proof. reflexivity. Qed.

(** The run of an upload that passed the checks of the file name. *)
Lemma upload_file_accepted_run w file :
  truthy (file_filename file) = true →
  allowed_file (file_filename file) = true →
  let prefix := uuid4 (uuid_draws w) in
  let conversation_id := uuid4 (S (uuid_draws w)) in
  let task_id := uuid4 (S (S (uuid_draws w))) in
  let filename := prefix ++ py "_" ++ secure_filename (file_filename file) in
  let file_path := upload_folder ++ py "/" ++ filename in
  let size := VInt (Z.of_nat (length (file_data file))) in
  let file_content :=
    extract_text_from_file (file_data file) (file_filename file) in
  let w1 := after save_conversations
              (set_conversations <[conversation_id := []]>
                 (tick_uuid (tick_uuid w))) in
  let w2 := tick_uuid w1 in
  upload_file (Some file) w
  = if truthy_opt file_content && truthy_opt (py_strip <$> file_content)
    then
      let text := default [] file_content in
      let w3 := after (create_task task_id (py "file_analysis")
                         (upload_kwargs filename conversation_id
                            (Z.of_nat (length (file_data file))))) w2 in
      MkRun [w1; w3] w3
        (Ok (Json 200
               {[ "message"%string := VStr msg_upload_analyzing;
                  "filename"%string := VStr filename;
                  "size"%string := size;
                  "path"%string := VStr file_path;
                  "content_preview"%string := VStr (content_preview text);
                  "conversation_id"%string := VStr conversation_id;
                  "task_id"%string := VStr task_id;
                  "has_content"%string := VBool true;
                  "status"%string := VStr (py "processing") ]},
             Some (submit_task task_id
                     (analyze_file_content_async task_id conversation_id text))))
    else
      MkRun [w1] w2
        (Ok (Json 200
               {[ "message"%string := VStr msg_upload_no_text;
                  "filename"%string := VStr filename;
                  "size"%string := size;
                  "path"%string := VStr file_path;
                  "conversation_id"%string := VStr conversation_id;
                  "has_content"%string := VBool false;
                  "status"%string := VStr (py "completed") ]}, None)).
Proof.
  intros Hname Hallowed. cbv zeta.
  unfold upload_file. rewrite Hname, Hallowed. simpl negb. cbv iota.
  destruct (truthy_opt _ && truthy_opt _).
  - eapply run_eq_trans.
    { eapply bind_run_ok; [reflexivity|].
      eapply bind_run_ok; [apply create_conversation_run|].
      eapply bind_run_ok; [reflexivity|]. cbv beta.
      eapply bind_run_ok; [apply create_task_run|].
      reflexivity. }
    rewrite ?uuid_draws_after_save. reflexivity.
  - eapply run_eq_trans.
    { eapply bind_run_ok; [reflexivity|].
      eapply bind_run_ok; [apply create_conversation_run|].
      eapply bind_run_ok; [reflexivity|].
      reflexivity. }
    rewrite ?uuid_draws_after_save. reflexivity.
Qed.
End UploadRuns.

(** An upload without a file, with an empty file name or with a file name
    that [allowed_file] refuses is answered with 400 and changes nothing:
    no uuid is drawn, no conversation and no task is created. *)
Theorem upload_rejected_unchanged `{!Environment} (w : World) :
  upload_file None w
    = MkRun [] w (Ok (Json 400 {[ "error"%string := VStr msg_no_file ]}, None))
  ∧ (∀ file, file_filename file = [] →
       upload_file (Some file) w
       = MkRun [] w
           (Ok (Json 400 {[ "error"%string := VStr msg_no_file_selected ]}, None)))
  ∧ (∀ file, file_filename file ≠ [] →
       allowed_file (file_filename file) = false →
       upload_file (Some file) w
       = MkRun [] w
           (Ok (Json 400 {[ "error"%string :=
                   VStr (msg_unsupported_type ++ joined_extensions) ]}, None))).
Proof.
  split; [reflexivity|]. split.
  - intros file Hname. unfold upload_file. by rewrite Hname.
  - intros file Hname Hallowed. unfold upload_file. rewrite Hallowed.
    by destruct (file_filename file).
Qed.

Lemma upload_rejected_unchanged_witness :
  final (@upload_file demo_env (Some (MkFileStorage (py "a.exe") (py "MZ")))
           finished_world)
  = finished_world.
Proof.
  destruct (@upload_rejected_unchanged demo_env finished_world) as (_ & _ & Hext).
  rewrite (Hext (MkFileStorage (py "a.exe") (py "MZ"))); [reflexivity| |].
  - discriminate.
  - reflexivity.
Defined.

(** An accepted upload whose text is [None], empty or white space only:
    the response is 200 with [has_content] false and status completed,
    without task id and preview; a conversation with an empty transcript
    is created under the id of the response, and no task is recorded. *)
Theorem upload_without_text `{!Environment} (w : World) (file : FileStorage) :
  truthy (file_filename file) = true →
  allowed_file (file_filename file) = true →
  (extract_text_from_file (file_data file) (file_filename file) = None
   ∨ ∃ text, extract_text_from_file (file_data file) (file_filename file)
             = Some text ∧ py_strip text = []) →
  let r := upload_file (Some file) w in
  let conversation_id := uuid4 (S (uuid_draws w)) in
  ∃ body,
    outcome r = Ok (Json 200 body, None)
    ∧ body !! "has_content"%string = Some (VBool false)
    ∧ body !! "status"%string = Some (VStr (py "completed"))
    ∧ body !! "conversation_id"%string = Some (VStr conversation_id)
    ∧ body !! "task_id"%string = None
    ∧ body !! "content_preview"%string = None
    ∧ conversations (final r) !! conversation_id = Some []
    ∧ tasks (final r) = tasks w
    ∧ heap (final r) = heap w.
Proof.
  intros Hname Hallowed Htext r conversation_id. subst r conversation_id.
  rewrite upload_file_accepted_run by done. cbv zeta.
  assert (truthy_opt (extract_text_from_file (file_data file) (file_filename file))
          && truthy_opt (py_strip <$>
               extract_text_from_file (file_data file) (file_filename file))
          = false) as ->.
  { destruct Htext as [->|(text & -> & Hstrip)]; [done|].
    simpl. rewrite Hstrip. apply andb_false_r. }
  cbn [outcome final].
  eexists. split; [reflexivity|].
  repeat (split; [reflexivity|]).
  split.
  - cbn [conversations tick_uuid]. rewrite conversations_after_save.
    apply lookup_insert_eq.
  - split; reflexivity.
Qed.

Lemma upload_without_text_witness :
  ∃ body,
    outcome (@upload_file demo_env (Some (MkFileStorage (py "a.txt") (py "  ")))
               fresh_world)
    = Ok (Json 200 body, None)
    ∧ body !! "has_content"%string = Some (VBool false).
Proof.
  destruct (@upload_without_text demo_env fresh_world
              (MkFileStorage (py "a.txt") (py "  ")) eq_refl eq_refl)
    as (body & Hout & Hcontent & _).
  - right. exists (py "  "). split; reflexivity.
  - exists body. split; [exact Hout | exact Hcontent].
Defined.

(** An accepted upload whose text has a character that is not white
    space: before the response is sent the task is recorded, pending with
    progress 0, under the task id of the response, with the file name, the
    conversation id and the size as given; its conversation exists with
    an empty transcript; the call handed to the pool is the analysis of
    the text for these two ids. *)
Theorem upload_with_text_registers_task `{!Environment} (w : World)
    (file : FileStorage) (text : pystr) :
  truthy (file_filename file) = true →
  allowed_file (file_filename file) = true →
  extract_text_from_file (file_data file) (file_filename file) = Some text →
  truthy (py_strip text) = true →
  let r := upload_file (Some file) w in
  let conversation_id := uuid4 (S (uuid_draws w)) in
  let task_id := uuid4 (S (S (uuid_draws w))) in
  ∃ body d,
    outcome r
    = Ok (Json 200 body,
          Some (submit_task task_id
                  (analyze_file_content_async task_id conversation_id text)))
    ∧ body !! "task_id"%string = Some (VStr task_id)
    ∧ body !! "conversation_id"%string = Some (VStr conversation_id)
    ∧ body !! "status"%string = Some (VStr (py "processing"))
    ∧ task_record (final r) task_id = Some d
    ∧ status_of d = Some PENDING ∧ progress_of d = Some 0
    ∧ d !! "conversation_id"%string = Some (VStr conversation_id)
    ∧ d !! "file_size"%string
      = Some (VInt (Z.of_nat (length (file_data file))))
    ∧ conversations (final r) !! conversation_id = Some [].
Proof.
  intros Hname Hallowed Htext Hstrip r conversation_id task_id.
  subst r conversation_id task_id.
  assert (truthy text = true) as Hnonempty by (by destruct text).
  rewrite upload_file_accepted_run by done. cbv zeta. rewrite Htext.
  simpl truthy_opt. rewrite Hnonempty, Hstrip. simpl andb. cbv iota.
  cbn [outcome final default].
  eexists _, _. split; [reflexivity|].
  repeat (split; [reflexivity|]).
  split; [apply task_record_after_create|].
  repeat (split; [vm_compute; reflexivity|]).
  rewrite conversations_after_create.
  cbn [conversations tick_uuid]. rewrite conversations_after_save.
  apply lookup_insert_eq.
Qed.

Lemma upload_with_text_registers_task_witness :
  ∃ body d,
    outcome (@upload_file demo_env (Some long_file) fresh_world)
    = Ok (Json 200 body,
          Some (@submit_task demo_env (py "id2")
                  (@analyze_file_content_async demo_env (py "id2") (py "id1")
                     (replicate 501 97%N))))
    ∧ task_record (final (@upload_file demo_env (Some long_file) fresh_world))
        (py "id2") = Some d
    ∧ status_of d = Some PENDING.
Proof.
  destruct (@upload_with_text_registers_task demo_env fresh_world long_file
              (replicate 501 97%N) eq_refl eq_refl eq_refl eq_refl)
    as (body & d & Hout & _ & _ & _ & Hrec & Hst & _).
  exists body, d. split; [exact Hout|]. split; [exact Hrec | exact Hst].
Defined.
